(** * xytable: the movement controller and its safety gate

    A shallow embedding of [src/core/movement.py] (class [MovementController]),
    of the configuration lookup it uses ([src/core/config.py],
    [ConfigManager.get]) and of the hardware driver it talks to
    ([src/hardware/mesa_driver.py], class [MesaDriver]).

    Python floats are the kernel's binary64 floats ([PrimFloat]); an
    [Optional[float]] argument is an [option float].  Exceptions, the
    assignments to the two controller flags, log records and calls to the
    driver are kept in program order in an event trace, so that "before any
    backend call" and "on every exit path" are statements about that trace. *)

From Stdlib Require Import String Ascii List Bool ZArith PrimFloat.
Import ListNotations.
Set Warnings "-register-all".
Local Open Scope string_scope.
Local Open Scope list_scope.

(* ===================================================================== *)
(** ** Configuration: [ConfigManager] *)
(* ===================================================================== *)

(** The document [yaml.safe_load] returns, restricted to what the controller
    reads: numbers (carried as floats), mappings with string keys, and null. *)
Inductive yaml : Type :=
| YNum (x : float)
| YNull
| YMap (entries : list (string * yaml)).

Module ConfigManager.

(** [str.split(sep)] for a one-character separator. *)
Fixpoint split (sep : ascii) (s : string) : list string :=
  match s with
  | EmptyString => [EmptyString]
  | String c rest =>
      if Ascii.eqb c sep then EmptyString :: split sep rest
      else match split sep rest with
           | [] => [String c EmptyString]
           | w :: ws => String c w :: ws
           end
  end.

Fixpoint lookup (k : string) (entries : list (string * yaml)) : option yaml :=
  match entries with
  | [] => None
  | (k', v) :: rest => if String.eqb k k' then Some v else lookup k rest
  end.

(** [value[k]]: [None] stands for the [KeyError] of a missing key and the
    [TypeError] of subscripting something that is not a mapping. *)
Definition subscript (value : yaml) (k : string) : option yaml :=
  match value with
  | YMap entries => lookup k entries
  | _ => None
  end.

(** The loop [for k in keys: value = value[k]]. *)
Fixpoint descend (keys : list string) (value : yaml) : option yaml :=
  match keys with
  | [] => Some value
  | k :: ks =>
      match subscript value k with
      | Some v => descend ks v
      | None => None
      end
  end.

(** [ConfigManager.get(key, default)]: dot notation, [default] on
    [KeyError] or [TypeError]. *)
Definition get (_config : yaml) (key : string) (default : yaml) : yaml :=
  match descend (split "."%char key) _config with
  | Some value => value
  | None => default
  end.

End ConfigManager.

(* ===================================================================== *)
(** ** Exceptions, log records and the event trace *)
(* ===================================================================== *)

(** An f-string before rendering: literal text and the interpolated values. *)
Inductive frag : Type :=
| T (s : string)           (* literal text, or an interpolated str *)
| F (x : float)            (* {x} *)
| F4 (x : float)           (* {x:.4f} *)
| Y (v : yaml)             (* a configuration value *)
| Bv (b : bool)            (* {b} *)
| Iv (n : Z).              (* {n} *)

Definition fstring := list frag.

Inductive exn_class : Type :=
| RuntimeError | ValueError | TypeError | AttributeError
| OtherException           (* any other subclass of Exception *)
| KeyboardInterrupt.       (* a BaseException that is not an Exception *)

Record exn : Type := Exn { exn_cls : exn_class; exn_msg : fstring }.

(** What [except Exception] catches. *)
Definition is_Exception (e : exn) : bool :=
  match exn_cls e with
  | KeyboardInterrupt => false
  | _ => true
  end.

Inductive level : Type := DEBUG | INFO | WARNING | ERROR.

(** The driver interface the controller uses (the methods of [MesaDriver]
    that [MovementController] calls). *)
Inductive request : Type :=
| IsConnected
| Connect
| ReadStatus
| MoveAxis (axis : string) (distance speed : float)
| MoveAbsolute (x y : float)
| HomeAllAxes
| EmergencyStop
| ClearEmergencyStop
| StartJog (axis : string) (direction : Z) (speed : float)
| StopJog (axis : string)
| SetIO (io_channel : Z) (state : bool).

(** The two keys of the dict of [read_status] that the controller reads;
    [None] is a missing key. *)
Record status_dict : Type :=
  { st_connected : option bool; st_emergency_stop : option bool }.

(** Python values a driver method hands back. *)
Inductive pyval : Type :=
| VBool (b : bool)
| VNone
| VDict (d : status_dict).

Inductive reply : Type :=
| Returns (v : pyval)
| Raises (e : exn).

(** Truth value of a returned object ([if not driver.method(...)]). *)
Definition truthy (v : pyval) : bool :=
  match v with
  | VBool b => b
  | VNone => false
  | VDict _ => true
  end.

Inductive flag : Type := EmergencyStopActive | MovementInProgress.

Inductive event : Type :=
| Log (lvl : level) (msg : fstring)
| Assign (f : flag) (b : bool)
| Call (rq : request) (rp : reply).

(** A driver: some state and the effect of each method on it. *)
Class Driver (B : Type) : Type :=
  { invoke : request -> B -> reply * B }.

(* ===================================================================== *)
(** ** The controller monad: state, exceptions and the trace *)
(* ===================================================================== *)

Inductive outcome (A : Type) : Type :=
| Ok (a : A)
| Err (e : exn).
Arguments Ok {A} a.
Arguments Err {A} e.

Section Controller.

Context {B : Type} `{Driver B}.

Record controller : Type :=
  { config : yaml;
    _emergency_stop_active : bool;
    _movement_in_progress : bool;
    mesa_driver : B }.

(** A method body: from the object's state to its result, the state it
    leaves (mutations survive an exception) and the events in order. *)
Definition M (A : Type) : Type := controller -> outcome A * controller * list event.

Definition ret {A} (a : A) : M A := fun s => (Ok a, s, []).

Definition bind {A C} (m : M A) (f : A -> M C) : M C :=
  fun s =>
    match m s with
    | (Ok a, s1, t1) =>
        match f a s1 with
        | (r, s2, t2) => (r, s2, t1 ++ t2)
        end
    | (Err e, s1, t1) => (Err e, s1, t1)
    end.

Definition raise {A} (e : exn) : M A := fun s => (Err e, s, []).

(** [try: m except Exception as e: h e]. *)
Definition try_except {A} (m : M A) (h : exn -> M A) : M A :=
  fun s =>
    match m s with
    | (Err e, s1, t1) =>
        if is_Exception e then
          match h e s1 with
          | (r, s2, t2) => (r, s2, t1 ++ t2)
          end
        else (Err e, s1, t1)
    | done => done
    end.

(** [try: m finally: fin]. *)
Definition try_finally {A} (m : M A) (fin : M unit) : M A :=
  fun s =>
    match m s with
    | (r, s1, t1) =>
        match fin s1 with
        | (Ok _, s2, t2) => (r, s2, t1 ++ t2)
        | (Err e, s2, t2) => (Err e, s2, t1 ++ t2)
        end
    end.

End Controller.

Arguments controller B : clear implicits.
Arguments M B A : clear implicits.

Declare Scope py_scope.
Delimit Scope py_scope with py.
Notation "x <- m ;; k" := (bind m (fun x => k))
  (at level 61, m at next level, right associativity) : py_scope.
Notation "m ;; k" := (bind m (fun _ => k))
  (at level 61, right associativity) : py_scope.

(* ===================================================================== *)
(** ** [src/utils/logging.py] *)
(* ===================================================================== *)

Module logging.

Definition upper_ascii (c : ascii) : ascii :=
  let n := nat_of_ascii c in
  if Nat.leb 97 n && Nat.leb n 122 then ascii_of_nat (n - 32) else c.

(** [str.upper()] on ASCII text. *)
Fixpoint upper (s : string) : string :=
  match s with
  | EmptyString => EmptyString
  | String c rest => String (upper_ascii c) (upper rest)
  end.

(** [log_movement_event(logger, axis, action, distance, speed)]: the callers
    in the controller always pass a speed, so the first branch is taken. *)
Definition log_movement_event (axis action : string) (distance speed : float) : event :=
  Log INFO [T "MOVEMENT: "; T (upper axis); T " axis "; T action; T " - ";
            F4 distance; T " inches at "; F4 speed; T " inches/sec"].

End logging.

(* ===================================================================== *)
(** ** [src/core/movement.py]: class [MovementController] *)
(* ===================================================================== *)

Module MovementController.

Section WithDriver.

Context {B : Type} `{Driver B}.

Local Open Scope py_scope.

(** *** Primitive steps of a method body *)

Definition read {A} (field : controller B -> A) : M B A :=
  fun s => (Ok (field s), s, []).

Definition set_flag (f : flag) (b : bool) (s : controller B) : controller B :=
  match f with
  | EmergencyStopActive =>
      {| config := config s; _emergency_stop_active := b;
         _movement_in_progress := _movement_in_progress s; mesa_driver := mesa_driver s |}
  | MovementInProgress =>
      {| config := config s; _emergency_stop_active := _emergency_stop_active s;
         _movement_in_progress := b; mesa_driver := mesa_driver s |}
  end.

Definition set_driver (b : B) (s : controller B) : controller B :=
  {| config := config s; _emergency_stop_active := _emergency_stop_active s;
     _movement_in_progress := _movement_in_progress s; mesa_driver := b |}.

(** [self._emergency_stop_active = b] and [self._movement_in_progress = b]. *)
Definition assign (f : flag) (b : bool) : M B unit :=
  fun s => (Ok tt, set_flag f b s, [Assign f b]).

(** [self.logger.<lvl>(msg)]. *)
Definition log (lvl : level) (msg : fstring) : M B unit :=
  fun s => (Ok tt, s, [Log lvl msg]).

Definition emit (e : event) : M B unit :=
  fun s => (Ok tt, s, [e]).

(** [self.mesa_driver.<method>(...)]: the call is recorded with its reply; an
    exception raised inside the driver propagates into the caller. *)
Definition driver (rq : request) : M B pyval :=
  fun s =>
    match invoke rq (mesa_driver s) with
    | (Returns v, b') => (Ok v, set_driver b' s, [Call rq (Returns v)])
    | (Raises e, b') => (Err e, set_driver b' s, [Call rq (Raises e)])
    end.

(** [self.config.get(key, default)]. *)
Definition config_get (key : string) (default : yaml) : M B yaml :=
  fun s => (Ok (ConfigManager.get (config s) key default), s, []).

(** [float(v)] on a configuration value. *)
Definition py_float (v : yaml) : M B float :=
  match v with
  | YNum x => ret x
  | _ => raise (Exn TypeError [T "float() argument must be a string or a real number"])
  end.

(** [x > v] for a float [x] and a configuration value [v]. *)
Definition py_gt (x : float) (v : yaml) : M B bool :=
  match v with
  | YNum m => ret (PrimFloat.ltb m x)
  | _ => raise (Exn TypeError [T "'>' not supported between instances"])
  end.

(** [d.get(key, False)] on what [read_status] returned, taken as a truth
    value; anything that is not a dict has no [get]. *)
Definition status_get (d : pyval) (key : status_dict -> option bool) : M B bool :=
  match d with
  | VDict fields => ret (match key fields with Some b => b | None => false end)
  | _ => raise (Exn AttributeError [T "object has no attribute 'get'"])
  end.

(** The two lines that open every [try] block:
    [if not self.mesa_driver.is_connected(): self.mesa_driver.connect()]. *)
Definition connect_if_needed : M B unit :=
  connected <- driver IsConnected ;;
  if negb (truthy connected) then (_ <- driver Connect ;; ret tt) else ret tt.

(** *** The methods *)

Definition init (config_manager : yaml) (mesa : B) : controller B :=
  {| config := config_manager;
     _emergency_stop_active := false;
     _movement_in_progress := false;
     mesa_driver := mesa |}.

(** [f'hardware.{axis}_axis.motor.max_speed']. *)
Definition max_speed_key (axis : string) : string :=
  "hardware." ++ axis ++ "_axis.motor.max_speed".

Definition _validate_movement (axis : string) (distance speed : float) : M B unit :=
  max_speed <- config_get (max_speed_key axis) (YNum 10%float) ;;
  too_fast <- py_gt speed max_speed ;;
  if too_fast : bool then
    raise (Exn ValueError [T "Speed "; F speed; T " exceeds maximum "; Y max_speed;
                           T " for "; T axis; T " axis"])
  else ret tt.
  (* TODO: Implement position limit checking if needed *)

Definition default_to_zero (x : option float) : float :=
  match x with
  | None => 0%float
  | Some v => v
  end.

(** [if speed is None: speed = float(self.config.get('movement.default_speed', 1.0))
     else: speed = float(speed)]. *)
Definition speed_or_default (speed : option float) : M B float :=
  match speed with
  | None => v <- config_get "movement.default_speed" (YNum 1%float) ;; py_float v
  | Some sp => ret sp
  end.

Definition blocked (what : string) : exn :=
  Exn RuntimeError [T ("Emergency stop is active - " ++ what ++ " blocked")].

Definition move_single_axis (axis : string) (distance speed : option float) : M B unit :=
  active <- read _emergency_stop_active ;;
  if active : bool then raise (blocked "movement") else
  let distance := default_to_zero distance in
  speed <- speed_or_default speed ;;
  _validate_movement axis distance speed ;;
  log INFO [T "Starting "; T axis; T " axis movement: "; F distance; T " inches at ";
            F speed; T " inches/sec"] ;;
  emit (logging.log_movement_event axis "started" distance speed) ;;
  try_finally
    (try_except
       (assign MovementInProgress true ;;
        connect_if_needed ;;
        moved <- driver (MoveAxis axis distance speed) ;;
        if negb (truthy moved) then
          raise (Exn RuntimeError [T "MesaDriver failed to move "; T axis; T " axis"])
        else
        emit (logging.log_movement_event axis "completed" distance speed) ;;
        log INFO [T axis; T " axis movement completed"])
       (fun e =>
          emit (logging.log_movement_event axis "failed" distance speed) ;;
          log ERROR ([T axis; T " axis movement failed: "] ++ exn_msg e) ;;
          raise e))
    (assign MovementInProgress false).

Definition move_absolute (x_position y_position speed : option float) : M B unit :=
  active <- read _emergency_stop_active ;;
  if active : bool then raise (blocked "movement") else
  let x_position := default_to_zero x_position in
  let y_position := default_to_zero y_position in
  speed <- speed_or_default speed ;;
  _validate_movement "x" x_position speed ;;
  _validate_movement "y" y_position speed ;;
  log INFO [T "Starting absolute movement: X="; F x_position; T " in, Y="; F y_position;
            T " in at "; F speed; T " in/sec"] ;;
  emit (logging.log_movement_event "x" "started (absolute)" x_position speed) ;;
  emit (logging.log_movement_event "y" "started (absolute)" y_position speed) ;;
  try_finally
    (try_except
       (assign MovementInProgress true ;;
        connect_if_needed ;;
        _ <- driver (MoveAbsolute x_position y_position) ;;
        emit (logging.log_movement_event "x" "completed (absolute)" x_position speed) ;;
        emit (logging.log_movement_event "y" "completed (absolute)" y_position speed) ;;
        log INFO [T "Absolute movement completed"])
       (fun e =>
          emit (logging.log_movement_event "x" "failed (absolute)" x_position speed) ;;
          emit (logging.log_movement_event "y" "failed (absolute)" y_position speed) ;;
          log ERROR ([T "Absolute movement failed: "] ++ exn_msg e) ;;
          raise e))
    (assign MovementInProgress false).

Definition move_coordinated (x_distance y_distance speed : option float) : M B unit :=
  active <- read _emergency_stop_active ;;
  if active : bool then raise (blocked "movement") else
  let x_distance := default_to_zero x_distance in
  let y_distance := default_to_zero y_distance in
  speed <- speed_or_default speed ;;
  _validate_movement "x" x_distance speed ;;
  _validate_movement "y" y_distance speed ;;
  log INFO [T "Starting coordinated movement: X="; F x_distance; T " in, Y="; F y_distance;
            T " in at "; F speed; T " in/sec"] ;;
  emit (logging.log_movement_event "x" "started (coordinated)" x_distance speed) ;;
  emit (logging.log_movement_event "y" "started (coordinated)" y_distance speed) ;;
  try_finally
    (try_except
       (assign MovementInProgress true ;;
        connect_if_needed ;;
        moved_x <- driver (MoveAxis "x" x_distance speed) ;;
        if negb (truthy moved_x) then
          raise (Exn RuntimeError [T "MesaDriver failed to move x axis"])
        else
        moved_y <- driver (MoveAxis "y" y_distance speed) ;;
        if negb (truthy moved_y) then
          raise (Exn RuntimeError [T "MesaDriver failed to move y axis"])
        else
        emit (logging.log_movement_event "x" "completed (coordinated)" x_distance speed) ;;
        emit (logging.log_movement_event "y" "completed (coordinated)" y_distance speed) ;;
        log INFO [T "Coordinated movement completed"])
       (fun e =>
          emit (logging.log_movement_event "x" "failed (coordinated)" x_distance speed) ;;
          emit (logging.log_movement_event "y" "failed (coordinated)" y_distance speed) ;;
          log ERROR ([T "Coordinated movement failed: "] ++ exn_msg e) ;;
          raise e))
    (assign MovementInProgress false).

(** [speed] is converted and then not used. *)
Definition home_axes (speed : option float) : M B unit :=
  let speed := default_to_zero speed in
  log INFO [T "Starting homing sequence"] ;;
  try_finally
    (try_except
       (assign MovementInProgress true ;;
        connect_if_needed ;;
        homed <- driver HomeAllAxes ;;
        if negb (truthy homed) then
          raise (Exn RuntimeError [T "MesaDriver failed to home all axes"])
        else
        log INFO [T "Homing sequence completed"])
       (fun e =>
          log ERROR ([T "Homing sequence failed: "] ++ exn_msg e) ;;
          raise e))
    (assign MovementInProgress false).

Definition emergency_stop : M B unit :=
  log WARNING [T "Emergency stop activated"] ;;
  assign EmergencyStopActive true ;;
  try_except
    (connect_if_needed ;;
     _ <- driver EmergencyStop ;;
     log INFO [T "Emergency stop completed"])
    (fun e =>
       log ERROR ([T "Emergency stop failed: "] ++ exn_msg e) ;;
       raise e).

Definition clear_emergency_stop : M B unit :=
  log INFO [T "Clearing emergency stop"] ;;
  assign EmergencyStopActive false ;;
  try_except
    (connect_if_needed ;;
     _ <- driver ClearEmergencyStop ;;
     ret tt)
    (fun e =>
       log ERROR ([T "Clear emergency stop failed: "] ++ exn_msg e) ;;
       raise e).

(** The property [emergency_stop_active]. *)
Definition emergency_stop_active : M B bool := read _emergency_stop_active.

Definition get_emergency_stop_status : M B bool :=
  try_except
    (connect_if_needed ;;
     mesa_status <- driver ReadStatus ;;
     connected <- status_get mesa_status st_connected ;;
     if connected : bool then
       estop <- status_get mesa_status st_emergency_stop ;;
       assign EmergencyStopActive estop ;;
       read _emergency_stop_active
     else read _emergency_stop_active)
    (fun e =>
       log ERROR ([T "Error getting emergency stop status: "] ++ exn_msg e) ;;
       read _emergency_stop_active).

(** The property [movement_in_progress]. *)
Definition movement_in_progress : M B bool := read _movement_in_progress.

Definition start_jog (axis : string) (direction : Z) (speed : float) : M B unit :=
  active <- read _emergency_stop_active ;;
  if active : bool then raise (blocked "jog") else
  log INFO [T "Starting jog: axis="; T axis; T ", direction="; Iv direction;
            T ", speed="; F speed] ;;
  try_except
    (connect_if_needed ;;
     started <- driver (StartJog axis direction speed) ;;
     if negb (truthy started) then
       raise (Exn RuntimeError [T "MesaDriver failed to start jog on "; T axis; T " axis"])
     else ret tt)
    (fun e =>
       log ERROR ([T "Jog start failed: "] ++ exn_msg e) ;;
       raise e).

Definition stop_jog (axis : string) : M B unit :=
  log INFO [T "Stopping jog: axis="; T axis] ;;
  try_except
    (connect_if_needed ;;
     stopped <- driver (StopJog axis) ;;
     if negb (truthy stopped) then
       raise (Exn RuntimeError [T "MesaDriver failed to stop jog on "; T axis; T " axis"])
     else ret tt)
    (fun e =>
       log ERROR ([T "Failed to stop jog on "; T axis; T " axis: "] ++ exn_msg e) ;;
       raise e).

Definition on_off (state : bool) : string := if state then "ON" else "OFF".

Definition set_io (io_name : string) (state : bool) : M B unit :=
  if negb (String.eqb io_name "down" || String.eqb io_name "start") then
    raise (Exn ValueError [T "Invalid IO name: "; T io_name;
                           T ". Use 'down' for mist or 'start' for flood"])
  else
  let io_channel := if String.eqb io_name "down" then 0%Z else 1%Z in
  log INFO [T "Setting "; T io_name; T " (channel "; Iv io_channel; T ") to "; T (on_off state)] ;;
  try_except
    (connect_if_needed ;;
     done <- driver (SetIO io_channel state) ;;
     if negb (truthy done) then
       raise (Exn RuntimeError [T "MesaDriver failed to set "; T io_name; T " to "; Bv state])
     else
     log INFO [T io_name; T " set to "; T (on_off state)])
    (fun e =>
       log ERROR ([T "Failed to set "; T io_name; T ": "] ++ exn_msg e) ;;
       raise e).

End WithDriver.

End MovementController.

(* ===================================================================== *)
(** ** [src/hardware/mesa_driver.py]: class [MesaDriver] *)
(* ===================================================================== *)

(** The [linuxcnc] Python binding is not part of the repository: it is taken
    as a parameter that says whether the module could be imported, which of
    its operations raise, and what the status channel reports. *)
Module linuxcnc.

Inductive op : Type :=
| reload | stat | command | error_channel | poll | abort | teleop_enable | jog
| state | wait_complete | home | mode | mdi | flood | mist.

Record env : Type :=
  { available : bool;          (* [linuxcnc is not None] *)
    raises : op -> bool;       (* the operation raises when called *)
    estop : bool }.            (* [status.estop] after a poll *)

(** The operations of a [try] block all return. *)
Definition all_return (e : env) (ops : list op) : bool :=
  forallb (fun o => negb (raises e o)) ops.

End linuxcnc.

Module MesaDriver.

Record t : Type :=
  { lcnc : linuxcnc.env;
    _connected : bool;
    _emergency_stop : bool;
    status : bool;             (* [self.status is not None] *)
    command : bool;            (* [self.command is not None] *)
    error : bool }.            (* [self.error is not None] *)

Definition init (lc : linuxcnc.env) : t :=
  {| lcnc := lc; _connected := false; _emergency_stop := false;
     status := false; command := false; error := false |}.

Definition set_connected (b : bool) (d : t) : t :=
  {| lcnc := lcnc d; _connected := b; _emergency_stop := _emergency_stop d;
     status := status d; command := command d; error := error d |}.

Definition set_emergency_stop (b : bool) (d : t) : t :=
  {| lcnc := lcnc d; _connected := _connected d; _emergency_stop := b;
     status := status d; command := command d; error := error d |}.

Definition set_status (b : bool) (d : t) : t :=
  {| lcnc := lcnc d; _connected := _connected d; _emergency_stop := _emergency_stop d;
     status := b; command := command d; error := error d |}.

Definition set_command (b : bool) (d : t) : t :=
  {| lcnc := lcnc d; _connected := _connected d; _emergency_stop := _emergency_stop d;
     status := status d; command := b; error := error d |}.

Definition set_error (b : bool) (d : t) : t :=
  {| lcnc := lcnc d; _connected := _connected d; _emergency_stop := _emergency_stop d;
     status := status d; command := command d; error := b |}.

Definition valid_axis (axis : string) : bool :=
  String.eqb axis "x" || String.eqb axis "y".

Definition connect (d : t) : bool * t :=
  let lc := lcnc d in
  let failed (d : t) := (false, set_connected false d) in
  if negb (linuxcnc.available lc) then failed d
  else if linuxcnc.raises lc linuxcnc.reload then failed d
  else if linuxcnc.raises lc linuxcnc.stat then failed d
  else
    let d := set_status true d in
    if linuxcnc.raises lc linuxcnc.command then failed d
    else
      let d := set_command true d in
      if linuxcnc.raises lc linuxcnc.error_channel then failed d
      else
        let d := set_error true d in
        if linuxcnc.raises lc linuxcnc.poll then failed d
        else (true, set_connected true d).

Definition is_connected (d : t) : bool := _connected d.

Definition not_connected_status : status_dict :=
  {| st_connected := Some false; st_emergency_stop := None |}.

Definition read_status (d : t) : status_dict :=
  if negb (is_connected d) then not_connected_status
  else if negb (status d) then not_connected_status
  else if linuxcnc.raises (lcnc d) linuxcnc.poll then not_connected_status
  else {| st_connected := Some true; st_emergency_stop := Some (linuxcnc.estop (lcnc d)) |}.

Definition move_axis (axis : string) (distance speed : float) (d : t) : bool :=
  if negb (valid_axis axis) then false
  else if negb (is_connected d) then false
  else if negb (linuxcnc.available (lcnc d)) then false
  else if negb (command d) || negb (status d) then false
  else
    (* [command.abort()], tried when the task is not done, is inside a
       [try] of its own that swallows its failure *)
    linuxcnc.all_return (lcnc d) [linuxcnc.poll; linuxcnc.teleop_enable; linuxcnc.jog].

Definition emergency_stop (d : t) : bool * t :=
  if negb (is_connected d) then (false, d)
  else if command d
          && negb (linuxcnc.available (lcnc d) && linuxcnc.all_return (lcnc d) [linuxcnc.state])
  then (false, d)
  else (true, set_emergency_stop true d).

Definition clear_emergency_stop (d : t) : bool * t :=
  if negb (is_connected d) then (false, d)
  else if command d
          && negb (linuxcnc.available (lcnc d)
                   && linuxcnc.all_return (lcnc d)
                        [linuxcnc.state; linuxcnc.wait_complete;
                         linuxcnc.state; linuxcnc.wait_complete])
  then (false, d)
  else (true, set_emergency_stop false d).

Definition home_all_axes (d : t) : bool :=
  if negb (is_connected d) then false
  else if negb (command d) then false
  else linuxcnc.all_return (lcnc d) [linuxcnc.home; linuxcnc.wait_complete].

Definition move_absolute (x y : float) (d : t) : bool :=
  if negb (is_connected d) then false
  else if negb (command d) then false
  else if negb (linuxcnc.available (lcnc d)) then false
  else linuxcnc.all_return (lcnc d)
         [linuxcnc.mode; linuxcnc.wait_complete; linuxcnc.mdi; linuxcnc.wait_complete].

Definition set_io (io_channel : Z) (state : bool) (d : t) : bool :=
  if negb (is_connected d) then false
  else if negb (command d) then false
  else if negb (linuxcnc.available (lcnc d)) then false
  else if Z.eqb io_channel 1 then linuxcnc.all_return (lcnc d) [linuxcnc.flood]
  else if Z.eqb io_channel 0 then linuxcnc.all_return (lcnc d) [linuxcnc.mist]
  else false.

Definition start_jog (axis : string) (direction : Z) (speed : float) (d : t) : bool :=
  if negb (valid_axis axis) then false
  else if negb (Z.eqb direction 1 || Z.eqb direction (-1)) then false
  else if negb (is_connected d) then false
  else if negb (command d) || negb (status d) then false
  else if negb (linuxcnc.available (lcnc d)) then false
  else linuxcnc.all_return (lcnc d) [linuxcnc.poll; linuxcnc.teleop_enable; linuxcnc.jog].

Definition stop_jog (axis : string) (d : t) : bool :=
  if negb (valid_axis axis) then false
  else if negb (is_connected d) then false
  else if negb (command d) || negb (status d) then false
  else if negb (linuxcnc.available (lcnc d)) then false
  else linuxcnc.all_return (lcnc d) [linuxcnc.poll; linuxcnc.teleop_enable; linuxcnc.jog].

(** The driver as the controller sees it.  Every method of [MesaDriver]
    catches what its body raises, so each call returns. *)
Definition dispatch (rq : request) (d : t) : reply * t :=
  match rq with
  | IsConnected => (Returns (VBool (is_connected d)), d)
  | Connect => let (ok, d') := connect d in (Returns (VBool ok), d')
  | ReadStatus => (Returns (VDict (read_status d)), d)
  | MoveAxis axis distance speed => (Returns (VBool (move_axis axis distance speed d)), d)
  | MoveAbsolute x y => (Returns (VBool (move_absolute x y d)), d)
  | HomeAllAxes => (Returns (VBool (home_all_axes d)), d)
  | EmergencyStop => let (ok, d') := emergency_stop d in (Returns (VBool ok), d')
  | ClearEmergencyStop => let (ok, d') := clear_emergency_stop d in (Returns (VBool ok), d')
  | StartJog axis direction speed => (Returns (VBool (start_jog axis direction speed d)), d)
  | StopJog axis => (Returns (VBool (stop_jog axis d)), d)
  | SetIO io_channel state => (Returns (VBool (set_io io_channel state d)), d)
  end.

#[global] Instance driver : Driver t := {| invoke := dispatch |}.

End MesaDriver.

(* ===================================================================== *)
(** ** Two machines to run the controller on *)
(* ===================================================================== *)

(** A host where [import linuxcnc] failed (the [except ImportError] branch
    at the top of [mesa_driver.py]). *)
Definition no_linuxcnc : linuxcnc.env :=
  {| linuxcnc.available := false; linuxcnc.raises := fun _ => false;
     linuxcnc.estop := false |}.

(** A machine whose LinuxCNC answers every operation; [pressed] is what its
    status channel reports for the e-stop input. *)
Definition healthy (pressed : bool) : linuxcnc.env :=
  {| linuxcnc.available := true; linuxcnc.raises := fun _ => false;
     linuxcnc.estop := pressed |}.

(** A configuration file with the sections [_validate_config] looks for:
    the table limits of both axes and the default movement speed. *)
Definition table_config : yaml :=
  YMap [("table", YMap [("x_axis", YMap [("min_position", YNum 0%float);
                                         ("max_position", YNum 4.25%float);
                                         ("max_speed", YNum 10%float)]);
                        ("y_axis", YMap [("min_position", YNum 0%float);
                                         ("max_position", YNum 3.125%float);
                                         ("max_speed", YNum 10%float)])]);
        ("movement", YMap [("default_speed", YNum 1%float)])].

(** The same file with a default speed above the ceiling. *)
Definition fast_default_config : yaml :=
  YMap [("movement", YMap [("default_speed", YNum 25%float)])].

Import MovementController.

Definition fresh (cfg : yaml) (lc : linuxcnc.env) : controller MesaDriver.t :=
  init cfg (MesaDriver.init lc).

(* ===================================================================== *)
(** ** Reading a run *)
(* ===================================================================== *)

Definition result {B A} (run : outcome A * controller B * list event) : outcome A :=
  fst (fst run).

Definition final {B A} (run : outcome A * controller B * list event) : controller B :=
  snd (fst run).

Definition trace {B A} (run : outcome A * controller B * list event) : list event :=
  snd run.

(** The driver calls of a trace, in order, each with its reply. *)
Fixpoint calls (tr : list event) : list (request * reply) :=
  match tr with
  | [] => []
  | Call rq rp :: rest => (rq, rp) :: calls rest
  | _ :: rest => calls rest
  end.

(** The calls that command the machine: everything but the connection
    handshake and the status read. *)
Definition commands_machine (c : request * reply) : bool :=
  match fst c with
  | IsConnected | Connect | ReadStatus => false
  | _ => true
  end.

Definition motion_calls (tr : list event) : list (request * reply) :=
  filter commands_machine (calls tr).

(** A driver call failed: it raised, or it returned something false. *)
Definition failed (rp : reply) : bool :=
  match rp with
  | Returns v => negb (truthy v)
  | Raises _ => true
  end.

(** The value of a flag after the assignments of a trace. *)
Fixpoint replay (f : flag) (tr : list event) (b : bool) : bool :=
  match tr with
  | [] => b
  | Assign EmergencyStopActive v :: rest =>
      replay f rest (match f with EmergencyStopActive => v | MovementInProgress => b end)
  | Assign MovementInProgress v :: rest =>
      replay f rest (match f with MovementInProgress => v | EmergencyStopActive => b end)
  | _ :: rest => replay f rest b
  end.

(** The error kinds of the specification, as the exceptions that carry
    them: the controller raises [RuntimeError] with one of two fixed
    messages when the gate is closed, and [ValueError] from validation. *)
Definition SafetyBlocked (e : exn) : Prop :=
  e = blocked "movement" \/ e = blocked "jog".

Definition ValidationError (e : exn) : Prop :=
  exn_cls e = ValueError.

(** The speed ceiling [_validate_movement] reads for an axis. *)
Definition max_speed {B} (st : controller B) (axis : string) : yaml :=
  ConfigManager.get (config st) (max_speed_key axis) (YNum 10%float).

(** The configured default movement speed. *)
Definition default_speed {B} (st : controller B) : yaml :=
  ConfigManager.get (config st) "movement.default_speed" (YNum 1%float).

(** The operations of the controller, as one type. *)
Inductive operation : Type :=
| OpMoveSingleAxis (axis : string) (distance speed : option float)
| OpMoveAbsolute (x_position y_position speed : option float)
| OpMoveCoordinated (x_distance y_distance speed : option float)
| OpHomeAxes (speed : option float)
| OpEmergencyStop
| OpClearEmergencyStop
| OpEmergencyStopActive
| OpGetEmergencyStopStatus
| OpMovementInProgress
| OpStartJog (axis : string) (direction : Z) (speed : float)
| OpStopJog (axis : string)
| OpSetIO (io_name : string) (state : bool).

Section Runs.

Context {B : Type} `{Driver B}.

Definition forget {A} (m : M B A) : M B unit :=
  fun s => match m s with
           | (Ok _, s', tr) => (Ok tt, s', tr)
           | (Err e, s', tr) => (Err e, s', tr)
           end.

(** One call of a method on the controller object. *)
Definition perform (op : operation) : M B unit :=
  match op with
  | OpMoveSingleAxis axis distance speed => move_single_axis axis distance speed
  | OpMoveAbsolute x y speed => move_absolute x y speed
  | OpMoveCoordinated dx dy speed => move_coordinated dx dy speed
  | OpHomeAxes speed => home_axes speed
  | OpEmergencyStop => emergency_stop
  | OpClearEmergencyStop => clear_emergency_stop
  | OpEmergencyStopActive => forget emergency_stop_active
  | OpGetEmergencyStopStatus => forget get_emergency_stop_status
  | OpMovementInProgress => forget movement_in_progress
  | OpStartJog axis direction speed => start_jog axis direction speed
  | OpStopJog axis => stop_jog axis
  | OpSetIO io_name state => set_io io_name state
  end.

(** A sequence of calls, one after the other, whatever each one returns. *)
Fixpoint session (ops : list operation) (st : controller B) : controller B :=
  match ops with
  | [] => st
  | op :: rest => session rest (final (perform op st))
  end.

End Runs.

(* ===================================================================== *)
(** ** Vocabulary of the statements *)
(* ===================================================================== *)

(** The four operations that toggle [_movement_in_progress]. *)
Definition is_motion (op : operation) : bool :=
  match op with
  | OpMoveSingleAxis _ _ _ | OpMoveAbsolute _ _ _ | OpMoveCoordinated _ _ _
  | OpHomeAxes _ => true
  | _ => false
  end.

(** The operations whose body opens with the emergency-stop test. *)
Definition is_gated (op : operation) : bool :=
  match op with
  | OpMoveSingleAxis _ _ _ | OpMoveAbsolute _ _ _ | OpMoveCoordinated _ _ _
  | OpStartJog _ _ _ => true
  | _ => false
  end.




(** Every driver call of the trace is made while flag [f] reads [want],
    starting from the value [b]. *)
Fixpoint calls_see (f : flag) (want : bool) (tr : list event) (b : bool) : bool :=
  match tr with
  | [] => true
  | Call _ _ :: rest => Bool.eqb b want && calls_see f want rest b
  | ev :: rest => calls_see f want rest (replay f [ev] b)
  end.

(** The exception a failed driver call turns into: what it raised, or the
    controller's own [RuntimeError] when it returned something false. *)
Definition surfaced (msg : fstring) (rp : reply) : exn :=
  match rp with
  | Raises e => e
  | Returns _ => Exn RuntimeError msg
  end.

(** The handshake at the head of a [try] block raised [e]. *)
Definition handshake_raised (e : exn) (tr : list event) : Prop :=
  In (IsConnected, Raises e) (calls tr) \/ In (Connect, Raises e) (calls tr).

(** What a status dict says the e-stop is. *)
Definition reported_estop (d : status_dict) : bool :=
  match st_emergency_stop d with
  | Some b => b
  | None => false
  end.

(* ===================================================================== *)
(** ** Concrete controllers *)
(* ===================================================================== *)

(** A new controller on a working machine with the e-stop input released. *)
Definition idle_machine : controller MesaDriver.t :=
  fresh table_config (healthy false).

(** A new controller on a working machine whose e-stop input is pressed. *)
Definition pressed_machine : controller MesaDriver.t :=
  fresh table_config (healthy true).

(** A new controller on a host without the [linuxcnc] module. *)
Definition offline_machine : controller MesaDriver.t :=
  fresh table_config no_linuxcnc.

(** The same controllers after a call of [emergency_stop]. *)
Definition stopped_machine : controller MesaDriver.t :=
  final (emergency_stop idle_machine).

Definition stopped_offline : controller MesaDriver.t :=
  final (emergency_stop offline_machine).

(** A new controller whose configured default speed is above the ceiling. *)
Definition fast_default_machine : controller MesaDriver.t :=
  fresh fast_default_config (healthy false).

(* ===================================================================== *)
(** ** [src/core/config.py]: [ConfigManager._validate_config] *)
(* ===================================================================== *)

Module ConfigValidation.

(** A checking step: its result and the warnings it logged. *)
Definition checked : Type := outcome unit * list event.

Definition not_iterable : exn :=
  Exn TypeError [T "argument of type is not iterable"].

(** [key in value]: [None] is the [TypeError] of testing membership in a
    value that is not a container. *)
Definition contains (value : yaml) (key : string) : option bool :=
  match value with
  | YMap entries =>
      Some (match ConfigManager.lookup key entries with
            | Some _ => true
            | None => false
            end)
  | _ => None
  end.

(** One statement after another: the second runs if the first returned. *)
Definition and_then (first second : checked) : checked :=
  match first with
  | (Ok _, warned) => (fst second, warned ++ snd second)
  | (Err e, warned) => (Err e, warned)
  end.

(** [for field in fields: if field not in value: logger.warning(msg field)]. *)
Fixpoint warn_missing (msg : string -> fstring) (value : yaml) (fields : list string)
  : checked :=
  match fields with
  | [] => (Ok tt, [])
  | field :: rest =>
      match contains value field with
      | None => (Err not_iterable, [])
      | Some true => warn_missing msg value rest
      | Some false => and_then (Ok tt, [Log WARNING (msg field)]) (warn_missing msg value rest)
      end
  end.

Definition required_sections : list string := ["mesa"; "table"; "movement"; "logging"].

Definition required_mesa_fields : list string := ["ip"; "port"; "timeout"].

Definition required_axis_fields : list string :=
  ["max_travel"; "min_position"; "max_position"; "default_speed"; "max_speed"].

(** The body of [for axis in ['x_axis', 'y_axis']]. *)
Definition check_axis (table : yaml) (axis : string) : checked :=
  match contains table axis with
  | None => (Err not_iterable, [])
  | Some false => (Ok tt, [Log WARNING [T "Missing "; T axis; T " configuration"]])
  | Some true =>
      match ConfigManager.subscript table axis with
      | Some axis_config =>
          warn_missing
            (fun field => [T "Missing "; T field; T " configuration for "; T axis])
            axis_config required_axis_fields
      | None => (Ok tt, [])
      end
  end.

Definition _validate_config (_config : yaml) : checked :=
  and_then
    (warn_missing (fun section => [T "Missing configuration section: "; T section])
       _config required_sections)
    (and_then
       (match ConfigManager.subscript _config "mesa" with
        | Some mesa =>
            warn_missing (fun field => [T "Missing Mesa configuration field: "; T field])
              mesa required_mesa_fields
        | None => (Ok tt, [])
        end)
       (match ConfigManager.subscript _config "table" with
        | Some table => and_then (check_axis table "x_axis") (check_axis table "y_axis")
        | None => (Ok tt, [])
        end)).





End ConfigValidation.

(** ['.'.join(keys)]. *)
Fixpoint join (keys : list string) : string :=
  match keys with
  | [] => EmptyString
  | [k] => k
  | k :: rest => k ++ "." ++ join rest
  end.

(** The document that holds [value] under the nested keys [keys]. *)
Fixpoint nest (keys : list string) (value : yaml) : yaml :=
  match keys with
  | [] => value
  | k :: rest => YMap [(k, nest rest value)]
  end.

(** The string has no dot. *)
Fixpoint dotless (s : string) : bool :=
  match s with
  | EmptyString => true
  | String c rest => negb (Ascii.eqb c "."%char) && dotless rest
  end.

(* ===================================================================== *)
(** ** More of [MesaDriver]: [disconnect], [home_axis], sequences of calls *)
(* ===================================================================== *)

Module MesaSession.

(** [MesaDriver.disconnect]. *)
Definition disconnect (d : MesaDriver.t) : MesaDriver.t :=
  MesaDriver.set_error false
    (MesaDriver.set_command false
       (MesaDriver.set_status false (MesaDriver.set_connected false d))).

(** [MesaDriver.home_axis]. *)
Definition home_axis (axis : string) (d : MesaDriver.t) : bool :=
  if negb (MesaDriver.is_connected d) then false
  else if negb (MesaDriver.valid_axis axis) then false
  else if negb (MesaDriver.command d) then false
  else linuxcnc.all_return (MesaDriver.lcnc d) [linuxcnc.home].

(** What a user of the driver object can do with it. *)
Inductive action : Type :=
| Method (rq : request)
| Disconnect
| HomeAxis (axis : string).

Definition act (a : action) (d : MesaDriver.t) : MesaDriver.t :=
  match a with
  | Method rq => snd (MesaDriver.dispatch rq d)
  | Disconnect => disconnect d
  | HomeAxis _ => d
  end.

Fixpoint run (actions : list action) (d : MesaDriver.t) : MesaDriver.t :=
  match actions with
  | [] => d
  | a :: rest => run rest (act a d)
  end.

(** A connected driver holds its three LinuxCNC objects, and the module was
    there to make them. *)
Definition consistent (d : MesaDriver.t) : Prop :=
  MesaDriver._connected d = true ->
  MesaDriver.status d = true /\ MesaDriver.command d = true
  /\ MesaDriver.error d = true /\ linuxcnc.available (MesaDriver.lcnc d) = true.

(** A LinuxCNC that is installed and answers every operation. *)
Definition answers (lc : linuxcnc.env) : Prop :=
  linuxcnc.available lc = true /\ forall o, linuxcnc.raises lc o = false.

End MesaSession.

(* ===================================================================== *)
(** ** [src/hardware/axis_manager.py]: class [AxisManager] *)
(* ===================================================================== *)

Module AxisManager.

(** One entry of [_axis_states]. *)
Record axis_state : Type :=
  { position : Z; enabled : bool; in_position : bool; status : string }.

(** [_system_state]. *)
Record system_state : Type :=
  { connected : bool;
    emergency_stop : bool;
    x_min : bool; x_max : bool; y_min : bool; y_max : bool;   (* limit_switches *)
    error_state : bool }.

(** The object: [_axis_states] has the two keys ['x'] and ['y']. *)
Record t : Type :=
  { axis_x : axis_state; axis_y : axis_state; _system_state : system_state }.

Definition idle_axis : axis_state :=
  {| position := 0; enabled := false; in_position := true; status := "idle" |}.

Definition init : t :=
  {| axis_x := idle_axis; axis_y := idle_axis;
     _system_state :=
       {| connected := false; emergency_stop := false;
          x_min := false; x_max := false; y_min := false; y_max := false;
          error_state := false |} |}.

(** [self._axis_states[axis]], [None] when [axis not in self._axis_states]. *)
Definition axis_states (s : t) (axis : string) : option axis_state :=
  if String.eqb axis "x" then Some (axis_x s)
  else if String.eqb axis "y" then Some (axis_y s)
  else None.

(** [self._axis_states[axis] = a], for one of the two keys. *)
Definition store (axis : string) (a : axis_state) (s : t) : t :=
  if String.eqb axis "x" then
    {| axis_x := a; axis_y := axis_y s; _system_state := _system_state s |}
  else
    {| axis_x := axis_x s; axis_y := a; _system_state := _system_state s |}.

Definition ran (A : Type) : Type := outcome A * t * list event.

Definition invalid_axis {A} (axis : string) (s : t) : ran A :=
  (Err (Exn ValueError [T "Invalid axis: "; T axis]), s, []).

(** [log_hardware_event(logger, event, details)] of [src/utils/logging.py];
    no details is the empty list. *)
Definition log_hardware_event (what : fstring) (details : fstring) : event :=
  match details with
  | [] => Log INFO (T "HARDWARE EVENT: " :: what)
  | _ => Log INFO (T "HARDWARE EVENT: " :: what ++ T " - " :: details)
  end.

Definition get_axis_status (axis : string) (s : t) : ran axis_state :=
  match axis_states s axis with
  | None => invalid_axis axis s
  | Some a => (Ok a, s, [])
  end.

Definition get_system_status (s : t) : ran system_state :=
  (Ok (_system_state s), s, []).

Definition disable_axis (axis : string) (s : t) : ran unit :=
  match axis_states s axis with
  | None => invalid_axis axis s
  | Some a =>
      (Ok tt,
       store axis {| position := position a; enabled := false;
                     in_position := in_position a; status := "disabled" |} s,
       [Log INFO [T "Disabling "; T axis; T " axis"];
        log_hardware_event [T axis; T " axis disabled"] []])
  end.

Definition move_axis (axis : string) (steps speed : Z) (s : t) : ran unit :=
  match axis_states s axis with
  | None => invalid_axis axis s
  | Some a =>
      if negb (enabled a) then
        (Err (Exn RuntimeError [T axis; T " axis is not enabled"]), s, [])
      else
        (Ok tt,
         store axis {| position := position a + steps; enabled := enabled a;
                       in_position := true; status := "idle" |} s,
         [Log INFO [T "Moving "; T axis; T " axis: "; Iv steps; T " steps at "; Iv speed;
                    T " steps/sec"];
          log_hardware_event [T axis; T " axis movement"]
            [T "{'steps': "; Iv steps; T ", 'speed': "; Iv speed; T "}"]])
  end.

Definition home_axis (axis : string) (speed : Z) (s : t) : ran unit :=
  match axis_states s axis with
  | None => invalid_axis axis s
  | Some a =>
      (Ok tt,
       store axis {| position := 0; enabled := enabled a;
                     in_position := true; status := "idle" |} s,
       [Log INFO [T "Homing "; T axis; T " axis at "; Iv speed; T " steps/sec"];
        log_hardware_event [T axis; T " axis homing"] [T "{'speed': "; Iv speed; T "}"]])
  end.

Definition stop_axis (axis : string) (s : t) : ran unit :=
  match axis_states s axis with
  | None => invalid_axis axis s
  | Some a =>
      (Ok tt,
       store axis {| position := position a; enabled := enabled a;
                     in_position := in_position a; status := "idle" |} s,
       [Log INFO [T "Stopping "; T axis; T " axis"];
        log_hardware_event [T axis; T " axis stopped"] []])
  end.

Definition stopped (a : axis_state) : axis_state :=
  {| position := position a; enabled := enabled a;
     in_position := false; status := "emergency_stop" |}.

Definition with_emergency_stop (b : bool) (y : system_state) : system_state :=
  {| connected := connected y; emergency_stop := b;
     x_min := x_min y; x_max := x_max y; y_min := y_min y; y_max := y_max y;
     error_state := error_state y |}.

Definition emergency_stop_all (s : t) : ran unit :=
  (Ok tt,
   {| axis_x := stopped (axis_x s); axis_y := stopped (axis_y s);
      _system_state := with_emergency_stop true (_system_state s) |},
   [Log WARNING [T "Emergency stop all axes"];
    log_hardware_event [T "Emergency stop all axes"] []]).

(** [if status == 'emergency_stop': status = 'idle']. *)
Definition released (a : axis_state) : axis_state :=
  if String.eqb (status a) "emergency_stop" then
    {| position := position a; enabled := enabled a;
       in_position := in_position a; status := "idle" |}
  else a.

Definition clear_emergency_stop (s : t) : ran unit :=
  (Ok tt,
   {| axis_x := released (axis_x s); axis_y := released (axis_y s);
      _system_state := with_emergency_stop false (_system_state s) |},
   [Log INFO [T "Clearing emergency stop"];
    log_hardware_event [T "Emergency stop cleared"] []]).

Definition get_position (axis : string) (s : t) : ran Z :=
  match axis_states s axis with
  | None => invalid_axis axis s
  | Some a => (Ok (position a), s, [])
  end.

Definition set_position (axis : string) (p : Z) (s : t) : ran unit :=
  match axis_states s axis with
  | None => invalid_axis axis s
  | Some a =>
      (Ok tt,
       store axis {| position := p; enabled := enabled a;
                     in_position := in_position a; status := status a |} s,
       [Log INFO [T "Setting "; T axis; T " axis position to "; Iv p]])
  end.

Definition is_enabled (axis : string) (s : t) : ran bool :=
  match axis_states s axis with
  | None => invalid_axis axis s
  | Some a => (Ok (enabled a), s, [])
  end.

Definition is_in_position (axis : string) (s : t) : ran bool :=
  match axis_states s axis with
  | None => invalid_axis axis s
  | Some a => (Ok (in_position a), s, [])
  end.

Definition is_connected (s : t) : ran bool :=
  (Ok (connected (_system_state s)), s, []).

Definition is_emergency_stop_active (s : t) : ran bool :=
  (Ok (emergency_stop (_system_state s)), s, []).

(** The methods that change the object, as one type. *)
Inductive command : Type :=
| DisableAxis (axis : string)
| MoveSteps (axis : string) (steps speed : Z)
| HomeAxis (axis : string) (speed : Z)
| StopAxis (axis : string)
| EmergencyStopAll
| ClearAll
| SetPosition (axis : string) (p : Z).

Definition after {A} (r : ran A) : t := snd (fst r).

Definition execute (c : command) (s : t) : t :=
  match c with
  | DisableAxis axis => after (disable_axis axis s)
  | MoveSteps axis steps speed => after (move_axis axis steps speed s)
  | HomeAxis axis speed => after (home_axis axis speed s)
  | StopAxis axis => after (stop_axis axis s)
  | EmergencyStopAll => after (emergency_stop_all s)
  | ClearAll => after (clear_emergency_stop s)
  | SetPosition axis p => after (set_position axis p s)
  end.

Fixpoint run (cs : list command) (s : t) : t :=
  match cs with
  | [] => s
  | c :: rest => run rest (execute c s)
  end.

End AxisManager.

(* ===================================================================== *)
(** ** [webapi/main.py]: [sanitize_filename] *)
(* ===================================================================== *)

Module webapi.

Definition double_quote : ascii := ascii_of_nat 34.

Definition backslash : ascii := ascii_of_nat 92.

(** The character class of the pattern: < > : double quote / backslash | ? * *)
Definition unsafe (c : ascii) : bool :=
  existsb (Ascii.eqb c)
    ["<"%char; ">"%char; ":"%char; double_quote; "/"%char; backslash;
     "|"%char; "?"%char; "*"%char].

(** [re.sub(pattern, '_', name)], one [ascii] per character of the name. *)
Fixpoint replace_unsafe (name : string) : string :=
  match name with
  | EmptyString => EmptyString
  | String c rest => String (if unsafe c then "_"%char else c) (replace_unsafe rest)
  end.

(** [s[:n]]. *)
Fixpoint prefix (n : nat) (s : string) : string :=
  match n, s with
  | S m, String c rest => String c (prefix m rest)
  | _, _ => EmptyString
  end.

Definition sanitize_filename (name : string) : string :=
  prefix 50 (replace_unsafe name).

(** No character of the string is in the class. *)
Fixpoint safe (s : string) : bool :=
  match s with
  | EmptyString => true
  | String c rest => negb (unsafe c) && safe rest
  end.

(** The fields of a [MoveRequest], after conversion to their types. *)
Record MoveRequest : Type :=
  { axis : string; distance : float; speed : option float }.

(** The validators of [MoveRequest]: each returns its value or raises
    [ValueError]. *)
Definition quoted (s : string) : string :=
  String double_quote (s ++ String double_quote EmptyString).

Definition validate_axis (v : string) : outcome string :=
  if negb (String.eqb v "x" || String.eqb v "y") then
    Err (Exn ValueError [T ("Axis must be " ++ quoted "x" ++ " or " ++ quoted "y")])
  else Ok v.

Definition validate_distance (v : float) : outcome float :=
  if PrimFloat.ltb 10%float (PrimFloat.abs v) then
    Err (Exn ValueError [T "Distance too large (max 10 inches)"])
  else Ok v.

Definition validate_speed (v : option float) : outcome (option float) :=
  match v with
  | Some x =>
      if PrimFloat.leb x 0%float || PrimFloat.ltb 10%float x then
        Err (Exn ValueError [T "Speed must be between 0 and 20 inches/sec"])
      else Ok v
  | None => Ok v
  end.

(** The request passes its three validators. *)
Definition accepted (req : MoveRequest) : Prop :=
  validate_axis (axis req) = Ok (axis req)
  /\ validate_distance (distance req) = Ok (distance req)
  /\ validate_speed (speed req) = Ok (speed req).

End webapi.

(** A connected driver on a working machine, and the same after
    [disconnect]. *)
Definition connected_driver : MesaDriver.t :=
  snd (MesaDriver.connect (MesaDriver.init (healthy false))).

Definition disconnected_driver : MesaDriver.t :=
  MesaSession.disconnect connected_driver.

(** A configuration file with every section and field the checks look for,
    and a ceiling under the key the controller reads. *)
Definition complete_config : yaml :=
  YMap [("mesa", YMap [("ip", YNum 0%float); ("port", YNum 0%float);
                       ("timeout", YNum 1%float)]);
        ("table", YMap [("x_axis", YMap [("max_travel", YNum 4.25%float);
                                         ("min_position", YNum 0%float);
                                         ("max_position", YNum 4.25%float);
                                         ("default_speed", YNum 1%float);
                                         ("max_speed", YNum 2%float)]);
                        ("y_axis", YMap [("max_travel", YNum 3.125%float);
                                         ("min_position", YNum 0%float);
                                         ("max_position", YNum 3.125%float);
                                         ("default_speed", YNum 1%float);
                                         ("max_speed", YNum 2%float)])]);
        ("movement", YMap [("default_speed", YNum 1%float)]);
        ("logging", YMap [])].

(* ===================================================================== *)
(** ** Properties that hold for every driver *)
(* ===================================================================== *)

Arguments max_speed_key : simpl never.
Arguments ConfigManager.get : simpl never.
Arguments logging.log_movement_event : simpl never.
Arguments blocked : simpl never.
Arguments default_to_zero : simpl never.

Ltac unfold_monad :=
  unfold bind, ret, raise, try_except, try_finally, read, assign, log, emit,
    config_get, py_float, py_gt, status_get, forget, driver in *.

Ltac unfold_methods :=
  unfold perform, move_single_axis, move_absolute, move_coordinated, home_axes,
    emergency_stop, clear_emergency_stop, emergency_stop_active,
    get_emergency_stop_status, movement_in_progress, start_jog, stop_jog, set_io,
    _validate_movement, speed_or_default, connect_if_needed.

(** One step of a run: use what is known about the next test, otherwise
    split on it. *)
Ltac case_step :=
  match goal with
  | E : _emergency_stop_active ?s = _ |- context [_emergency_stop_active ?s] => rewrite E
  | E : ConfigManager.get ?c ?k ?d = _ |- context [ConfigManager.get ?c ?k ?d] => rewrite E
  | E : PrimFloat.ltb ?x ?y = _ |- context [PrimFloat.ltb ?x ?y] => rewrite E
  | E : truthy ?val = _ |- context [truthy ?val] => rewrite E
  | E : is_Exception ?ex = _ |- context [is_Exception ?ex] => rewrite E
  | |- context [_emergency_stop_active ?s] =>
      is_var s; destruct (_emergency_stop_active s) eqn:?
  | |- context [ConfigManager.get ?c ?k ?d] => destruct (ConfigManager.get c k d) eqn:?
  | |- context [PrimFloat.ltb ?x ?y] => destruct (PrimFloat.ltb x y) eqn:?
  | |- context [invoke ?rq ?drv] => destruct (invoke rq drv) as [[?v | ?e] ?b] eqn:?
  | |- context [truthy ?val] => destruct (truthy val) eqn:?
  | |- context [is_Exception ?ex] => destruct (is_Exception ex) eqn:?
  end.

Ltac run_cases := repeat (simpl; case_step); simpl.

(** The same for the status read, which also looks into the returned dict. *)
Ltac status_cases :=
  repeat (simpl;
          first [ case_step
                | match goal with
                  | |- context [match ?v with VBool _ => _ | VNone => _ | VDict _ => _ end] =>
                      is_var v; destruct v as [? | | [[[|]|] ?]]
                  end ]); simpl.

Ltac run_method := unfold_methods; unfold_monad; unfold result, final, trace; run_cases.

Section Laws.

Context {B : Type} `{Driver B}.

(** *** Validation *)

Lemma validate_accepts (axis : string) (distance speed m : float) (st : controller B) :
  max_speed st axis = YNum m -> PrimFloat.ltb m speed = false ->
  _validate_movement axis distance speed st = (Ok tt, st, []).
Proof.
  unfold max_speed. intros Hmax Hle. now run_method.
Qed.

Lemma validate_rejects (axis : string) (distance speed m : float) (st : controller B) :
  max_speed st axis = YNum m -> PrimFloat.ltb m speed = true ->
  _validate_movement axis distance speed st =
    (Err (Exn ValueError [T "Speed "; F speed; T " exceeds maximum "; Y (YNum m);
                          T " for "; T axis; T " axis"]), st, []).
Proof.
  unfold max_speed. intros Hmax Hlt. now run_method.
Qed.

(** The speed in effect is the one given, or else the configured default. *)
Lemma speed_in_effect (speed : option float) (s : float) (st : controller B) :
  speed_or_default speed st = (Ok s, st, []) ->
  speed = Some s \/ (speed = None /\ default_speed st = YNum s).
Proof.
  unfold speed_or_default, default_speed. unfold_monad.
  destruct speed as [given |]; simpl.
  - intros Heq. left. congruence.
  - destruct (ConfigManager.get (config st) "movement.default_speed" (YNum 1%float));
      simpl; intros Heq; try discriminate. right. split; congruence.
Qed.

(** The position argument plays no part in validation. *)
Lemma validate_ignores_distance (axis : string) (d1 d2 speed : float) (st : controller B) :
  _validate_movement axis d1 speed st = _validate_movement axis d2 speed st.
Proof. reflexivity. Qed.

(** *** The trace and the flags *)

Lemma calls_see_sound (f : flag) (want : bool) (tr : list event) :
  forall b, calls_see f want tr b = true ->
  forall before rq rp after,
    tr = before ++ Call rq rp :: after -> replay f before b = want.
Proof.
  induction tr as [| ev tr IH]; intros b Hc before rq rp after Heq.
  - destruct before; discriminate.
  - destruct before as [| ev' before]; simpl in Heq; injection Heq as -> ->.
    + simpl in Hc. apply andb_prop in Hc. destruct Hc as [Hb _].
      now apply Bool.eqb_prop in Hb.
    + destruct ev' as [lvl msg | g v | rq' rp']; simpl in *.
      * eapply IH; eauto.
      * destruct g, f; simpl in *; eapply IH; eauto.
      * apply andb_prop in Hc. destruct Hc. eapply IH; eauto.
Qed.

(** *** The safety gate *)

(** With the flag set, the three moves and [start_jog] raise at their first
    statement: nothing is logged, assigned or sent to the driver. *)
Lemma gate_blocks (op : operation) (st : controller B) :
  is_gated op = true ->
  _emergency_stop_active st = true ->
  exists e, perform op st = (Err e, st, []) /\ SafetyBlocked e.
Proof.
  intros Hop Hstop.
  destruct op; try discriminate Hop; unfold_methods; unfold_monad; rewrite Hstop;
    eexists; (split; [reflexivity |]); unfold SafetyBlocked; auto.
Qed.

(** [home_axes] has no such test: it contacts the driver in every state. *)
Lemma home_axes_contacts_driver (speed : option float) (st : controller B) :
  exists rp rest, calls (trace (home_axes speed st)) = (IsConnected, rp) :: rest.
Proof.
  run_method; eexists; eexists; reflexivity.
Qed.

(** Neither have the two safety operations, the status read and
    [stop_jog]: they stay callable while the flag is set. *)
Lemma safety_operations_not_gated (op : operation) (st : controller B) :
  op = OpEmergencyStop \/ op = OpClearEmergencyStop \/ op = OpGetEmergencyStopStatus
  \/ (exists axis, op = OpStopJog axis) ->
  exists rp rest, calls (trace (perform op st)) = (IsConnected, rp) :: rest.
Proof.
  intros [-> | [-> | [-> | [axis ->]]]];
    unfold_methods; unfold_monad; unfold result, final, trace;
    status_cases; eexists; eexists; reflexivity.
Qed.

(** The two safety operations and the reads do not look at the flag before
    acting: the flag read is answered from the object alone. *)
Lemma emergency_stop_active_reads (st : controller B) :
  emergency_stop_active st = (Ok (_emergency_stop_active st), st, []).
Proof. reflexivity. Qed.

Lemma movement_in_progress_reads (st : controller B) :
  movement_in_progress st = (Ok (_movement_in_progress st), st, []).
Proof. reflexivity. Qed.

(** [emergency_stop] sets the flag before it talks to the driver, and
    nothing afterwards resets it. *)
Lemma emergency_stop_sets_flag_first (st : controller B) :
  _emergency_stop_active (final (emergency_stop st)) = true
  /\ forall before rq rp after,
       trace (emergency_stop st) = before ++ Call rq rp :: after ->
       replay EmergencyStopActive before (_emergency_stop_active st) = true.
Proof.
  assert (_emergency_stop_active (final (emergency_stop st)) = true
          /\ calls_see EmergencyStopActive true (trace (emergency_stop st))
               (_emergency_stop_active st) = true) as [Hf Hc].
  { run_method; auto. }
  split; [exact Hf |]. intros. eapply calls_see_sound; eauto.
Qed.

(** What the driver raises during [emergency_stop] reaches the caller. *)
Lemma emergency_stop_reraises (st : controller B) (rq : request) (e : exn) :
  In (rq, Raises e) (calls (trace (emergency_stop st))) ->
  result (emergency_stop st) = Err e.
Proof.
  run_method; intros Hin; simpl in Hin;
    repeat match goal with
           | Hor : _ \/ _ |- _ => destruct Hor
           | Heq : (_, _) = (_, _) |- _ => inversion Heq; clear Heq; subst
           | Hf : False |- _ => destruct Hf
           end; try reflexivity; try discriminate.
Qed.

(** *** C2 (amended) *)

(** C2, amended: [clear_emergency_stop] sets the local flag to [false] before
    it contacts the driver and never sets it again, so in every state and
    for every driver the flag reads [false] at each driver call and when the
    method returns, whether the driver's clear succeeds, returns false or
    raises. *)
Theorem clear_emergency_stop_clears_first :
  forall st : controller B,
    _emergency_stop_active (final (clear_emergency_stop st)) = false
    /\ forall before rq rp after,
         trace (clear_emergency_stop st) = before ++ Call rq rp :: after ->
         replay EmergencyStopActive before (_emergency_stop_active st) = false.
Proof.
  intros st.
  assert (_emergency_stop_active (final (clear_emergency_stop st)) = false
          /\ calls_see EmergencyStopActive false (trace (clear_emergency_stop st))
               (_emergency_stop_active st) = true) as [Hf Hc].
  { run_method; auto. }
  split; [exact Hf |]. intros. eapply calls_see_sound; eauto.
Qed.

(** *** C4 (amended) *)

(** C4, amended: the flag is [false] in a new controller; [emergency_stop]
    leaves it [true] and [clear_emergency_stop] leaves it [false];
    [get_emergency_stop_status] overwrites it with the e-stop value of the
    driver's status dict when that dict says it is connected, and leaves it
    as it was when no such dict came back; every other operation leaves it
    unchanged. *)
Theorem emergency_flag_writers :
  forall (cfg : yaml) (mesa : B) (op : operation) (st : controller B),
    _emergency_stop_active (init cfg mesa) = false
    /\ match op with
       | OpEmergencyStop =>
           _emergency_stop_active (final (perform op st)) = true
       | OpClearEmergencyStop =>
           _emergency_stop_active (final (perform op st)) = false
       | OpGetEmergencyStopStatus =>
           (forall d,
               In (ReadStatus, Returns (VDict d)) (calls (trace (perform op st))) ->
               st_connected d = Some true ->
               _emergency_stop_active (final (perform op st)) = reported_estop d)
           /\ ((forall d,
                   In (ReadStatus, Returns (VDict d)) (calls (trace (perform op st))) ->
                   st_connected d <> Some true) ->
               _emergency_stop_active (final (perform op st))
               = _emergency_stop_active st)
       | _ =>
           _emergency_stop_active (final (perform op st)) = _emergency_stop_active st
       end.
Proof.
  intros cfg mesa op st. split; [reflexivity |].
  destruct op as [? ? [?|] | ? ? [?|] | ? ? [?|] | ? | | | | | | | | ];
    try (run_method; solve [auto | congruence]).
  - (* get_emergency_stop_status *)
    unfold_methods; unfold_monad; unfold result, final, trace.
    status_cases;
      (split; [intros d Hin Hconn | intros Hnone]);
      try reflexivity;
      try (exfalso; eapply Hnone; [simpl; eauto | reflexivity]);
      simpl in Hin;
      repeat match goal with
             | Hor : _ \/ _ |- _ => destruct Hor
             | Heq : (_, _) = (_, _) |- _ => inversion Heq; clear Heq; subst
             | Hf : False |- _ => destruct Hf
             end; simpl in *; try reflexivity; try discriminate; try congruence.
  - (* set_io *)
    unfold_methods; unfold_monad; unfold result, final, trace.
    destruct (negb (String.eqb io_name "down" || String.eqb io_name "start")); run_cases; auto.
Qed.

(** *** C5 (amended), C6, C7 (amended), C8: validation *)

(** C5, amended: validation has no lower bound on the speed.  With the gate
    open, a request whose speed (given, or else the configured default) is
    zero or negative and does not exceed the axis's [max_speed] passes
    [_validate_movement] (no error, no event), and [move_single_axis] goes
    on to contact the driver. *)
Theorem speed_has_no_lower_bound :
  forall (axis : string) (distance speed : option float) (s m : float)
         (st : controller B),
    _emergency_stop_active st = false ->
    speed_or_default speed st = (Ok s, st, []) ->
    max_speed st axis = YNum m ->
    PrimFloat.ltb m s = false ->
    PrimFloat.leb s 0 = true ->
    _validate_movement axis (default_to_zero distance) s st = (Ok tt, st, [])
    /\ exists rp rest,
         calls (trace (move_single_axis axis distance speed st))
         = (IsConnected, rp) :: rest.
Proof.
  intros axis distance speed s m st Hgate Hspeed Hmax Hle _.
  split; [now apply validate_accepts with (m := m) |].
  unfold max_speed in Hmax.
  destruct (speed_in_effect speed s st Hspeed) as [-> | [-> Hd]];
    [| unfold default_speed in Hd];
    run_method; eexists; eexists; reflexivity.
Qed.


(** C7, amended: [move_absolute] validates the speed only.  With the gate
    open and a speed (given, or else the configured default) within both
    ceilings, every target, inside or outside the table, passes validation:
    unless the connection handshake raises, exactly one machine command is
    sent, the absolute move to that very target. *)
Theorem move_absolute_validates_speed_only :
  forall (x y speed : option float) (s mx my : float) (st : controller B),
    _emergency_stop_active st = false ->
    speed_or_default speed st = (Ok s, st, []) ->
    max_speed st "x" = YNum mx -> PrimFloat.ltb mx s = false ->
    max_speed st "y" = YNum my -> PrimFloat.ltb my s = false ->
    (exists e, result (move_absolute x y speed st) = Err e
               /\ handshake_raised e (trace (move_absolute x y speed st))
               /\ motion_calls (trace (move_absolute x y speed st)) = [])
    \/ exists rp,
         motion_calls (trace (move_absolute x y speed st))
         = [(MoveAbsolute (default_to_zero x) (default_to_zero y), rp)].
Proof.
  intros x y speed s mx my st Hgate Hspeed Hx Hxs Hy Hys.
  unfold max_speed in Hx, Hy. unfold handshake_raised.
  destruct (speed_in_effect speed s st Hspeed) as [-> | [-> Hd]];
    [| unfold default_speed in Hd];
    run_method;
    solve [ right; eexists; reflexivity
          | left; eexists; repeat split; simpl; auto ].
Qed.



(** *** C9: the coordinated move *)

(** C9: once past the gate and validation, [move_coordinated] sends at most
    two machine commands, the X move and then the Y move, and nothing else.
    Unless the connection handshake raises, the X move is sent.  If it fails
    (raises or returns false) the Y move is not sent and the failure is
    raised; if it succeeds the Y move is sent, and when that one fails the
    failure is raised with no further command after it: the X move is not
    undone.  The call returns normally exactly when both moves succeeded. *)
Theorem move_coordinated_sequencing :
  forall (dx dy speed : option float) (s mx my : float) (st : controller B),
    _emergency_stop_active st = false ->
    speed_or_default speed st = (Ok s, st, []) ->
    max_speed st "x" = YNum mx -> PrimFloat.ltb mx s = false ->
    max_speed st "y" = YNum my -> PrimFloat.ltb my s = false ->
    (exists e,
        result (move_coordinated dx dy speed st) = Err e
        /\ handshake_raised e (trace (move_coordinated dx dy speed st))
        /\ motion_calls (trace (move_coordinated dx dy speed st)) = [])
    \/ (exists rx,
          motion_calls (trace (move_coordinated dx dy speed st))
          = [(MoveAxis "x" (default_to_zero dx) s, rx)]
          /\ failed rx = true
          /\ result (move_coordinated dx dy speed st)
             = Err (surfaced [T "MesaDriver failed to move x axis"] rx))
    \/ (exists rx ry,
          motion_calls (trace (move_coordinated dx dy speed st))
          = [(MoveAxis "x" (default_to_zero dx) s, rx);
             (MoveAxis "y" (default_to_zero dy) s, ry)]
          /\ failed rx = false
          /\ result (move_coordinated dx dy speed st)
             = if failed ry
               then Err (surfaced [T "MesaDriver failed to move y axis"] ry)
               else Ok tt).
Proof.
  intros dx dy speed s mx my st Hgate Hspeed Hx Hxs Hy Hys.
  unfold max_speed in Hx, Hy. unfold handshake_raised.
  destruct (speed_in_effect speed s st Hspeed) as [-> | [-> Hd]];
    [| unfold default_speed in Hd];
    run_method;
    solve [ left; eexists; repeat split; simpl; auto
          | right; left; eexists; repeat split; simpl;
            repeat match goal with E : truthy _ = _ |- _ => rewrite E end; reflexivity
          | right; right; eexists; eexists; repeat split; simpl;
            repeat match goal with E : truthy _ = _ |- _ => rewrite E end; reflexivity ].
Qed.

(** *** C10: the busy flag *)

(** The trace of a motion operation, checked event by event. *)
Lemma motion_bracket (op : operation) (st : controller B) :
  is_motion op = true ->
  _movement_in_progress st = false ->
  _movement_in_progress (final (perform op st)) = false
  /\ calls_see MovementInProgress true (trace (perform op st)) false = true.
Proof.
  intros Hop Hidle.
  destruct op as [? ? [?|] | ? ? [?|] | ? ? [?|] | ? | | | | | | | | ];
    try discriminate Hop; clear Hop; run_method; auto.
Qed.


(** The operations that are not motion operations do not touch the flag. *)
Lemma other_operations_keep_busy_flag (op : operation) (st : controller B) :
  is_motion op = false ->
  _movement_in_progress (final (perform op st)) = _movement_in_progress st.
Proof.
  intros Hop.
  destruct op; try discriminate Hop; clear Hop;
    try (run_method; solve [auto | congruence]).
  - unfold_methods; unfold_monad; unfold result, final, trace.
    status_cases; auto.
  - unfold_methods; unfold_monad; unfold result, final, trace.
    destruct (negb (String.eqb io_name "down" || String.eqb io_name "start")); run_cases; auto.
Qed.

(** Between calls the busy flag is down: it is [false] after any sequence
    of operations on a new controller. *)
Lemma idle_between_calls (cfg : yaml) (mesa : B) (ops : list operation) :
  _movement_in_progress (session ops (init cfg mesa)) = false.
Proof.
  assert (Hinv : forall st : controller B,
             _movement_in_progress st = false ->
             _movement_in_progress (session ops st) = false).
  { induction ops as [| op ops IH]; intros st Hidle; simpl; [exact Hidle |].
    apply IH. destruct (is_motion op) eqn:Hop.
    - now apply motion_bracket.
    - now rewrite other_operations_keep_busy_flag. }
  now apply Hinv.
Qed.

End Laws.

(* ===================================================================== *)
(** ** Runs on the Mesa driver *)
(* ===================================================================== *)

(** *** C1 *)

(** C1, at the input where the code departs from it: after
    [emergency_stop] on a working machine the flag is set, yet [home_axes]
    is not blocked: it asks the driver to home all axes and returns
    normally. *)
Theorem home_axes_runs_under_emergency_stop :
  _emergency_stop_active stopped_machine = true
  /\ result (home_axes None stopped_machine) = Ok tt
  /\ calls (trace (home_axes None stopped_machine))
     = [(IsConnected, Returns (VBool true)); (HomeAllAxes, Returns (VBool true))].
Proof. vm_compute. repeat split. Qed.

(** On the same controller the three moves and [start_jog] are blocked. *)
Example stopped_machine_blocks_moves :
  move_single_axis "x" (Some 0.5%float) (Some 3%float) stopped_machine
  = (Err (blocked "movement"), stopped_machine, [])
  /\ move_absolute (Some 1%float) (Some 1%float) None stopped_machine
     = (Err (blocked "movement"), stopped_machine, [])
  /\ move_coordinated (Some 1%float) (Some 1%float) None stopped_machine
     = (Err (blocked "movement"), stopped_machine, [])
  /\ start_jog "x" 1%Z 2%float stopped_machine
     = (Err (blocked "jog"), stopped_machine, []).
Proof. vm_compute. repeat split. Qed.

(** *** C2 *)

(** C2 fails: on a host without [linuxcnc] the driver's clear returns
    [False], and the flag that was set is nevertheless [false] afterwards. *)
Lemma failed_clear_resets_flag :
  _emergency_stop_active stopped_offline = true
  /\ calls (trace (clear_emergency_stop stopped_offline))
     = [(IsConnected, Returns (VBool false)); (Connect, Returns (VBool false));
        (ClearEmergencyStop, Returns (VBool false))]
  /\ _emergency_stop_active (final (clear_emergency_stop stopped_offline)) = false.
Proof. vm_compute. repeat split. Qed.

(** *** C3 *)

(** C3, at the input where the code departs from it: on a host without
    [linuxcnc] the driver's emergency stop returns [False]; the flag is set,
    but the controller logs completion and returns normally, so the caller
    is not told that the stop failed. *)
Theorem emergency_stop_hides_failed_stop :
  calls (trace (emergency_stop offline_machine))
  = [(IsConnected, Returns (VBool false)); (Connect, Returns (VBool false));
     (EmergencyStop, Returns (VBool false))]
  /\ result (emergency_stop offline_machine) = Ok tt
  /\ last (trace (emergency_stop offline_machine)) (Log DEBUG [])
     = Log INFO [T "Emergency stop completed"]
  /\ _emergency_stop_active (final (emergency_stop offline_machine)) = true.
Proof. vm_compute. repeat split. Qed.

(** The sibling methods turn the same reply into an exception. *)
Example home_axes_raises_on_false :
  result (home_axes None offline_machine)
  = Err (Exn RuntimeError [T "MesaDriver failed to home all axes"]).
Proof. vm_compute. reflexivity. Qed.

(** *** C4 *)

(** C4 fails: a status read on a machine whose e-stop input is pressed sets
    the flag, though [emergency_stop] was never called. *)
Lemma status_read_sets_flag :
  _emergency_stop_active pressed_machine = false
  /\ _emergency_stop_active (final (perform OpGetEmergencyStopStatus pressed_machine))
     = true.
Proof. vm_compute. split; reflexivity. Qed.

(** *** C5 *)

(** C5 fails: a move at speed -1 is not rejected; it reaches the driver and
    returns normally. *)
Lemma negative_speed_reaches_driver :
  PrimFloat.leb (-1)%float 0%float = true
  /\ result (move_single_axis "x" (Some 0.5%float) (Some (-1)%float) idle_machine) = Ok tt
  /\ calls (trace (move_single_axis "x" (Some 0.5%float) (Some (-1)%float) idle_machine))
     = [(IsConnected, Returns (VBool false)); (Connect, Returns (VBool true));
        (MoveAxis "x" 0.5%float (-1)%float, Returns (VBool true))].
Proof. vm_compute. repeat split. Qed.

Lemma speed_has_no_lower_bound_witness :
  _emergency_stop_active idle_machine = false
  /\ speed_or_default (Some (-1)%float) idle_machine = (Ok (-1)%float, idle_machine, [])
  /\ max_speed idle_machine "x" = YNum 10%float
  /\ PrimFloat.ltb 10%float (-1)%float = false
  /\ PrimFloat.leb (-1)%float 0%float = true
  /\ (_validate_movement "x" (default_to_zero (Some 0.5%float)) (-1)%float idle_machine
      = (Ok tt, idle_machine, [])
      /\ exists rp rest,
           calls (trace (move_single_axis "x" (Some 0.5%float) (Some (-1)%float) idle_machine))
           = (IsConnected, rp) :: rest).
Proof.
  split; [reflexivity |]. split; [reflexivity |]. split; [reflexivity |].
  split; [reflexivity |]. split; [reflexivity |].
  apply (speed_has_no_lower_bound "x" (Some 0.5%float) (Some (-1)%float) (-1)%float
           10%float idle_machine); reflexivity.
Defined.

(** *** C6 *)


(** *** C7 *)

(** C7 fails: the table is 4.25 by 3.125 inches, and an absolute move to
    (100, -50) is sent to the driver and returns normally. *)
Lemma out_of_bounds_target_dispatched :
  ConfigManager.get (config idle_machine) "table.x_axis.max_position" YNull = YNum 4.25%float
  /\ PrimFloat.ltb 4.25%float 100%float = true
  /\ ConfigManager.get (config idle_machine) "table.y_axis.min_position" YNull = YNum 0%float
  /\ PrimFloat.ltb (-50)%float 0%float = true
  /\ result (move_absolute (Some 100%float) (Some (-50)%float) (Some 1%float) idle_machine)
     = Ok tt
  /\ calls (trace (move_absolute (Some 100%float) (Some (-50)%float) (Some 1%float)
                     idle_machine))
     = [(IsConnected, Returns (VBool false)); (Connect, Returns (VBool true));
        (MoveAbsolute 100%float (-50)%float, Returns (VBool true))].
Proof. vm_compute. repeat split. Qed.

Lemma move_absolute_validates_speed_only_witness :
  _emergency_stop_active idle_machine = false
  /\ speed_or_default (Some 1%float) idle_machine = (Ok 1%float, idle_machine, [])
  /\ max_speed idle_machine "x" = YNum 10%float
  /\ PrimFloat.ltb 10%float 1%float = false
  /\ max_speed idle_machine "y" = YNum 10%float
  /\ ((exists e,
          result (move_absolute (Some 100%float) (Some (-50)%float) (Some 1%float)
                    idle_machine) = Err e
          /\ handshake_raised e
               (trace (move_absolute (Some 100%float) (Some (-50)%float) (Some 1%float)
                         idle_machine))
          /\ motion_calls
               (trace (move_absolute (Some 100%float) (Some (-50)%float) (Some 1%float)
                         idle_machine)) = [])
      \/ exists rp,
           motion_calls
             (trace (move_absolute (Some 100%float) (Some (-50)%float) (Some 1%float)
                       idle_machine))
           = [(MoveAbsolute (default_to_zero (Some 100%float))
                 (default_to_zero (Some (-50)%float)), rp)]).
Proof.
  split; [reflexivity |]. split; [reflexivity |]. split; [reflexivity |].
  split; [reflexivity |]. split; [reflexivity |].
  apply (move_absolute_validates_speed_only (Some 100%float) (Some (-50)%float)
           (Some 1%float) 1%float 10%float 10%float idle_machine); reflexivity.
Defined.

(** *** C8 *)


(** The single-axis move with the speed omitted, on the same controller. *)
Example fast_default_is_rejected :
  exists msg,
    move_single_axis "y" (Some 0.25%float) None fast_default_machine
    = (Err (Exn ValueError msg), fast_default_machine, []).
Proof. eexists. vm_compute. reflexivity. Qed.

(** *** C9 *)

Lemma move_coordinated_sequencing_witness :
  _emergency_stop_active idle_machine = false
  /\ speed_or_default (Some 3%float) idle_machine = (Ok 3%float, idle_machine, [])
  /\ max_speed idle_machine "x" = YNum 10%float
  /\ PrimFloat.ltb 10%float 3%float = false
  /\ max_speed idle_machine "y" = YNum 10%float
  /\ ((exists e,
          result (move_coordinated (Some 1%float) (Some 2%float) (Some 3%float)
                    idle_machine) = Err e
          /\ handshake_raised e
               (trace (move_coordinated (Some 1%float) (Some 2%float) (Some 3%float)
                         idle_machine))
          /\ motion_calls
               (trace (move_coordinated (Some 1%float) (Some 2%float) (Some 3%float)
                         idle_machine)) = [])
      \/ (exists rx,
            motion_calls
              (trace (move_coordinated (Some 1%float) (Some 2%float) (Some 3%float)
                        idle_machine))
            = [(MoveAxis "x" (default_to_zero (Some 1%float)) 3%float, rx)]
            /\ failed rx = true
            /\ result (move_coordinated (Some 1%float) (Some 2%float) (Some 3%float)
                         idle_machine)
               = Err (surfaced [T "MesaDriver failed to move x axis"] rx))
      \/ (exists rx ry,
            motion_calls
              (trace (move_coordinated (Some 1%float) (Some 2%float) (Some 3%float)
                        idle_machine))
            = [(MoveAxis "x" (default_to_zero (Some 1%float)) 3%float, rx);
               (MoveAxis "y" (default_to_zero (Some 2%float)) 3%float, ry)]
            /\ failed rx = false
            /\ result (move_coordinated (Some 1%float) (Some 2%float) (Some 3%float)
                         idle_machine)
               = if failed ry
                 then Err (surfaced [T "MesaDriver failed to move y axis"] ry)
                 else Ok tt)).
Proof.
  split; [reflexivity |]. split; [reflexivity |]. split; [reflexivity |].
  split; [reflexivity |]. split; [reflexivity |].
  apply (move_coordinated_sequencing (Some 1%float) (Some 2%float) (Some 3%float) 3%float
           10%float 10%float idle_machine); reflexivity.
Defined.

(** On the working machine both moves are sent, X first. *)
Example coordinated_move_runs :
  calls (trace (move_coordinated (Some 1%float) (Some 2%float) (Some 3%float) idle_machine))
  = [(IsConnected, Returns (VBool false)); (Connect, Returns (VBool true));
     (MoveAxis "x" 1%float 3%float, Returns (VBool true));
     (MoveAxis "y" 2%float 3%float, Returns (VBool true))].
Proof. vm_compute. reflexivity. Qed.

(** Without [linuxcnc] the X move returns [False] and no Y move follows. *)
Example coordinated_move_stops_after_x :
  motion_calls (trace (move_coordinated (Some 1%float) (Some 2%float) (Some 3%float)
                         offline_machine))
  = [(MoveAxis "x" 1%float 3%float, Returns (VBool false))]
  /\ result (move_coordinated (Some 1%float) (Some 2%float) (Some 3%float) offline_machine)
     = Err (Exn RuntimeError [T "MesaDriver failed to move x axis"]).
Proof. vm_compute. split; reflexivity. Qed.

(** *** C10 *)


(* ===================================================================== *)
(** ** More about the controller, for every driver *)
(* ===================================================================== *)

(** After the handshake, either it raised or the one command went out. *)
Ltac one_command :=
  solve [ left; eexists; repeat split; simpl; auto
        | right; eexists; split; [reflexivity |]; simpl;
          repeat match goal with E : truthy _ = _ |- _ => rewrite E end; reflexivity ].

Ltac from_membership H :=
  simpl in H;
  repeat match goal with
         | Hor : _ \/ _ |- _ => destruct Hor
         | Heq : (_, _) = (_, _) |- _ => inversion Heq; clear Heq; subst
         | Hf : False |- _ => destruct Hf
         end.

Section MoreLaws.

Context {B : Type} `{Driver B}.

(** *** The methods that send one command *)

(** X1: [set_io] with a name other than 'down' and 'start' raises
    [ValueError] in every state, before anything is logged or sent: the
    controller is unchanged and the trace is empty. *)
Theorem set_io_rejects_unknown_name :
  forall (io_name : string) (state : bool) (st : controller B),
    io_name <> "down" -> io_name <> "start" ->
    exists e, set_io io_name state st = (Err e, st, []) /\ ValidationError e.
Proof.
  intros io_name state st Hdown Hstart.
  apply String.eqb_neq in Hdown. apply String.eqb_neq in Hstart.
  unfold set_io. rewrite Hdown, Hstart. simpl.
  eexists. split; reflexivity.
Qed.

(** X2: [set_io] maps 'down' to channel 0 and 'start' to channel 1 and, in
    every state (the emergency stop does not block it), sends exactly that
    one command unless the connection handshake raised; it returns normally
    when the driver's reply is true, and raises the driver's exception or
    its own [RuntimeError] when the reply is false. *)
Theorem set_io_sends_one_command :
  forall (io_name : string) (state : bool) (st : controller B),
    io_name = "down" \/ io_name = "start" ->
    (exists e, result (set_io io_name state st) = Err e
               /\ handshake_raised e (trace (set_io io_name state st))
               /\ motion_calls (trace (set_io io_name state st)) = [])
    \/ exists rp,
         motion_calls (trace (set_io io_name state st))
         = [(SetIO (if String.eqb io_name "down" then 0%Z else 1%Z) state, rp)]
         /\ result (set_io io_name state st)
            = if failed rp
              then Err (surfaced [T "MesaDriver failed to set "; T io_name; T " to ";
                                  Bv state] rp)
              else Ok tt.
Proof.
  intros io_name state st [-> | ->]; unfold handshake_raised;
    run_method; one_command.
Qed.

(** X3: [start_jog] checks the emergency stop and nothing else: with the
    gate open, whatever the axis name, the direction and the speed (no
    ceiling is applied), it sends exactly the jog-start command with those
    arguments unless the connection handshake raised, returns normally when
    the reply is true, and raises otherwise. *)
Theorem start_jog_sends_unvalidated_command :
  forall (axis : string) (direction : Z) (speed : float) (st : controller B),
    _emergency_stop_active st = false ->
    (exists e, result (start_jog axis direction speed st) = Err e
               /\ handshake_raised e (trace (start_jog axis direction speed st))
               /\ motion_calls (trace (start_jog axis direction speed st)) = [])
    \/ exists rp,
         motion_calls (trace (start_jog axis direction speed st))
         = [(StartJog axis direction speed, rp)]
         /\ result (start_jog axis direction speed st)
            = if failed rp
              then Err (surfaced [T "MesaDriver failed to start jog on "; T axis;
                                  T " axis"] rp)
              else Ok tt.
Proof.
  intros axis direction speed st Hgate. unfold handshake_raised.
  run_method; one_command.
Qed.

(** X4: [stop_jog] is never blocked: in every state, with the emergency
    stop set or not, it sends exactly the jog-stop command for the axis
    unless the connection handshake raised, returns normally when the reply
    is true, and raises otherwise. *)
Theorem stop_jog_always_sent :
  forall (axis : string) (st : controller B),
    (exists e, result (stop_jog axis st) = Err e
               /\ handshake_raised e (trace (stop_jog axis st))
               /\ motion_calls (trace (stop_jog axis st)) = [])
    \/ exists rp,
         motion_calls (trace (stop_jog axis st)) = [(StopJog axis, rp)]
         /\ result (stop_jog axis st)
            = if failed rp
              then Err (surfaced [T "MesaDriver failed to stop jog on "; T axis;
                                  T " axis"] rp)
              else Ok tt.
Proof.
  intros axis st. unfold handshake_raised.
  run_method; one_command.
Qed.

(** X5: [home_axes] sends exactly the home-all command unless the
    connection handshake raised, whatever speed it is given and in every
    state; it returns normally when the reply is true and raises the
    driver's exception or its own [RuntimeError] otherwise. *)
Theorem home_axes_sends_one_command :
  forall (speed : option float) (st : controller B),
    (exists e, result (home_axes speed st) = Err e
               /\ handshake_raised e (trace (home_axes speed st))
               /\ motion_calls (trace (home_axes speed st)) = [])
    \/ exists rp,
         motion_calls (trace (home_axes speed st)) = [(HomeAllAxes, rp)]
         /\ result (home_axes speed st)
            = if failed rp
              then Err (surfaced [T "MesaDriver failed to home all axes"] rp)
              else Ok tt.
Proof.
  intros speed st. unfold handshake_raised.
  run_method; one_command.
Qed.

(** X6: past the gate and validation, [move_single_axis] sends exactly one
    command, the relative move of that axis by the distance (0 when it is
    omitted) at the speed in effect, unless the connection handshake raised;
    it returns normally when the reply is true and raises otherwise. *)
Theorem move_single_axis_sends_one_command :
  forall (axis : string) (distance speed : option float) (s m : float)
         (st : controller B),
    _emergency_stop_active st = false ->
    speed_or_default speed st = (Ok s, st, []) ->
    max_speed st axis = YNum m ->
    PrimFloat.ltb m s = false ->
    (exists e, result (move_single_axis axis distance speed st) = Err e
               /\ handshake_raised e (trace (move_single_axis axis distance speed st))
               /\ motion_calls (trace (move_single_axis axis distance speed st)) = [])
    \/ exists rp,
         motion_calls (trace (move_single_axis axis distance speed st))
         = [(MoveAxis axis (default_to_zero distance) s, rp)]
         /\ result (move_single_axis axis distance speed st)
            = if failed rp
              then Err (surfaced [T "MesaDriver failed to move "; T axis; T " axis"] rp)
              else Ok tt.
Proof.
  intros axis distance speed s m st Hgate Hspeed Hmax Hle.
  unfold max_speed in Hmax. unfold handshake_raised.
  destruct (speed_in_effect speed s st Hspeed) as [-> | [-> Hd]];
    [| unfold default_speed in Hd];
    run_method; one_command.
Qed.

(** *** Replies the controller does not look at *)

(** X7: [move_absolute] does not look at what the driver's absolute move
    returns: past the gate and validation it returns normally whenever no
    driver call raised, also when the driver answered [False]. *)
Theorem move_absolute_ignores_reply :
  forall (x y speed : option float) (s mx my : float) (st : controller B),
    _emergency_stop_active st = false ->
    speed_or_default speed st = (Ok s, st, []) ->
    max_speed st "x" = YNum mx -> PrimFloat.ltb mx s = false ->
    max_speed st "y" = YNum my -> PrimFloat.ltb my s = false ->
    (forall rq e, ~ In (rq, Raises e) (calls (trace (move_absolute x y speed st)))) ->
    result (move_absolute x y speed st) = Ok tt.
Proof.
  intros x y speed s mx my st Hgate Hspeed Hx Hxs Hy Hys.
  unfold max_speed in Hx, Hy.
  destruct (speed_in_effect speed s st Hspeed) as [-> | [-> Hd]];
    [| unfold default_speed in Hd];
    run_method; intros Hquiet; try reflexivity;
    exfalso; eapply Hquiet; simpl; eauto.
Qed.

(** X8: [clear_emergency_stop] returns normally exactly when no driver
    call raised, whatever the driver's clear returned; an exception raised
    by the driver is the one the caller gets. *)
Theorem clear_emergency_stop_result :
  forall st : controller B,
    (result (clear_emergency_stop st) = Ok tt
     /\ forall rq e, ~ In (rq, Raises e) (calls (trace (clear_emergency_stop st))))
    \/ exists rq e,
         In (rq, Raises e) (calls (trace (clear_emergency_stop st)))
         /\ result (clear_emergency_stop st) = Err e.
Proof.
  intros st.
  run_method;
    solve [ left; split; [reflexivity |]; intros rq ex Hin; from_membership Hin
          | right; eexists; eexists; split; [simpl; eauto | reflexivity] ].
Qed.

(** X9: [get_emergency_stop_status] does not raise an [Exception]: it
    returns the flag as it stands when the method ends, and the only error
    that can leave it is a non-[Exception] (such as [KeyboardInterrupt])
    raised inside the driver. *)
Theorem status_read_never_raises :
  forall st : controller B,
    result (get_emergency_stop_status st)
    = Ok (_emergency_stop_active (final (get_emergency_stop_status st)))
    \/ exists rq e,
         In (rq, Raises e) (calls (trace (get_emergency_stop_status st)))
         /\ is_Exception e = false
         /\ result (get_emergency_stop_status st) = Err e.
Proof.
  intros st.
  unfold_methods; unfold_monad; unfold result, final, trace.
  status_cases;
    solve [ left; reflexivity
          | right; eexists; eexists; split; [simpl; eauto |]; split;
            [assumption | reflexivity] ].
Qed.

(** *** The gate *)

(** X10: once [emergency_stop] has been called, whatever the driver did
    with it (succeeded, returned false or raised), each of the three moves
    and [start_jog] is blocked: it raises the blocked [RuntimeError], leaves
    the controller as [emergency_stop] left it, and sends, assigns and logs
    nothing. *)
Theorem emergency_stop_closes_gate :
  forall (op : operation) (st : controller B),
    is_gated op = true ->
    exists e,
      perform op (final (emergency_stop st))
      = (Err e, final (emergency_stop st), [])
      /\ SafetyBlocked e.
Proof.
  intros op st Hop.
  apply gate_blocks; [exact Hop |].
  apply emergency_stop_sets_flag_first.
Qed.

(** X11: the three moves and [start_jog] are blocked exactly when the flag
    is set: such an operation raises the blocked [RuntimeError] with the
    controller unchanged and an empty trace if and only if
    [_emergency_stop_active] is true. *)
Theorem blocked_iff_flag_set :
  forall (op : operation) (st : controller B),
    is_gated op = true ->
    (exists e, perform op st = (Err e, st, []) /\ SafetyBlocked e)
    <-> _emergency_stop_active st = true.
Proof.
  intros op st Hop. split.
  - intros [e [Hrun Hblocked]].
    destruct (_emergency_stop_active st) eqn:Hgate; [reflexivity | exfalso].
    assert (Hcls : exn_cls e = RuntimeError)
      by (destruct Hblocked as [-> | ->]; reflexivity).
    assert (Hres : result (perform op st) = Err e) by (rewrite Hrun; reflexivity).
    assert (Htr : trace (perform op st) = []) by (rewrite Hrun; reflexivity).
    clear Hrun Hblocked. revert Hres Htr.
    destruct op as [? ? [?|] | ? ? [?|] | ? ? [?|] | ? | | | | | | | | ];
      try discriminate Hop; clear Hop;
      run_method; intros Hres Htr; try discriminate Htr;
      inversion Hres; subst; discriminate Hcls.
  - intros Hgate. now apply gate_blocks.
Qed.

(** X12: the busy flag is down between calls: from any controller whose
    [_movement_in_progress] is false, it is false again after every
    sequence of operations, whatever each of them returned. *)
Theorem busy_flag_down_after_session :
  forall (ops : list operation) (st : controller B),
    _movement_in_progress st = false ->
    _movement_in_progress (session ops st) = false.
Proof.
  induction ops as [| op ops IH]; intros st Hidle; simpl; [exact Hidle |].
  apply IH. destruct (is_motion op) eqn:Hop.
  - now apply motion_bracket.
  - now rewrite other_operations_keep_busy_flag.
Qed.

End MoreLaws.

(* ===================================================================== *)
(** ** The configuration *)
(* ===================================================================== *)

Section ConfigLaws.

(** [split] gives at least one piece. *)
Lemma split_not_empty (sep : ascii) (s : string) : ConfigManager.split sep s <> [].
Proof.
  destruct s as [| c rest]; simpl; [discriminate |].
  destruct (Ascii.eqb c sep); [discriminate |].
  destruct (ConfigManager.split sep rest); discriminate.
Qed.

Lemma split_dotless (s : string) :
  dotless s = true -> ConfigManager.split "."%char s = [s].
Proof.
  induction s as [| c rest IH]; simpl; [reflexivity |].
  intros Hd. apply andb_prop in Hd. destruct Hd as [Hc Hrest].
  apply negb_true_iff in Hc. rewrite Hc, (IH Hrest). reflexivity.
Qed.

Lemma split_component (k rest : string) :
  dotless k = true ->
  ConfigManager.split "."%char (k ++ "." ++ rest) = k :: ConfigManager.split "."%char rest.
Proof.
  induction k as [| c k IH]; simpl; [reflexivity |].
  intros Hd. apply andb_prop in Hd. destruct Hd as [Hc Hk].
  apply negb_true_iff in Hc. rewrite Hc. simpl in IH. rewrite (IH Hk). reflexivity.
Qed.

(** Splitting the joined key gives the components back. *)
Lemma split_join (keys : list string) :
  keys <> [] -> forallb dotless keys = true ->
  ConfigManager.split "."%char (join keys) = keys.
Proof.
  induction keys as [| k rest IH]; [congruence |].
  intros _ Hd. simpl in Hd. apply andb_prop in Hd. destruct Hd as [Hk Hrest].
  destruct rest as [| k' rest'].
  - simpl. now apply split_dotless.
  - change (join (k :: k' :: rest')) with (k ++ "." ++ join (k' :: rest'))%string.
    rewrite split_component by exact Hk.
    rewrite IH; [reflexivity | discriminate | exact Hrest].
Qed.

Lemma descend_nest (keys : list string) (value : yaml) :
  ConfigManager.descend keys (nest keys value) = Some value.
Proof.
  induction keys as [| k rest IH]; simpl; [reflexivity |].
  rewrite String.eqb_refl. exact IH.
Qed.

Lemma descend_app (prefix rest : list string) (cfg : yaml) :
  ConfigManager.descend (prefix ++ rest) cfg
  = match ConfigManager.descend prefix cfg with
    | Some v => ConfigManager.descend rest v
    | None => None
    end.
Proof.
  revert cfg. induction prefix as [| k prefix IH]; intros cfg; simpl; [reflexivity |].
  destruct (ConfigManager.subscript cfg k); [apply IH | reflexivity].
Qed.

(** X13: the dot notation of [get] is the path of its components: for
    components without a dot, [get] on the joined key returns what the walk
    along the components reaches, and the default when the walk fails; in
    particular a value stored under nested keys is read back. *)
Theorem get_follows_path :
  forall (keys : list string) (cfg value default : yaml),
    keys <> [] ->
    forallb dotless keys = true ->
    ConfigManager.get cfg (join keys) default
    = match ConfigManager.descend keys cfg with
      | Some v => v
      | None => default
      end
    /\ ConfigManager.get (nest keys value) (join keys) default = value.
Proof.
  intros keys cfg value default Hne Hd.
  unfold ConfigManager.get. rewrite (split_join keys Hne Hd).
  split; [reflexivity |]. now rewrite descend_nest.
Qed.

(** X14: [get] swallows the [TypeError] of subscripting a scalar: when the
    walk along a prefix of the key reaches a value that is not a mapping
    (a number or null, or the whole document when the file is empty), every
    longer key gives the default. *)
Theorem get_defaults_below_scalar :
  forall (prefix rest : list string) (cfg v default : yaml),
    rest <> [] ->
    forallb dotless (prefix ++ rest) = true ->
    ConfigManager.descend prefix cfg = Some v ->
    (forall entries, v <> YMap entries) ->
    ConfigManager.get cfg (join (prefix ++ rest)) default = default.
Proof.
  intros prefix rest cfg v default Hrest Hd Hwalk Hscalar.
  unfold ConfigManager.get. rewrite split_join.
  - rewrite descend_app, Hwalk.
    destruct rest as [| k rest']; [congruence |]. simpl.
    destruct v as [x | | entries]; simpl; try reflexivity.
    now destruct (Hscalar entries).
  - destruct prefix; [exact Hrest | discriminate].
  - exact Hd.
Qed.

End ConfigLaws.

Section CeilingLaws.

Context {B : Type} `{Driver B}.

Lemma ceiling_without_hardware (axis : string) (st : controller B) :
  ConfigManager.subscript (config st) "hardware" = None ->
  max_speed st axis = YNum 10%float.
Proof.
  intros Hnone.
  unfold max_speed, ConfigManager.get, max_speed_key.
  change ("hardware." ++ axis ++ "_axis.motor.max_speed")%string
    with ("hardware" ++ "." ++ (axis ++ "_axis.motor.max_speed"))%string.
  rewrite split_component by reflexivity.
  simpl. now rewrite Hnone.
Qed.

(** X15: the ceiling is read under [hardware.<axis>_axis.motor.max_speed]
    only: when the configuration has no top-level [hardware] key, whatever
    its [table] section says, [_validate_movement] applies the ceiling 10.0
    to every axis name, rejecting exactly the speeds above 10.0. *)
Theorem ceiling_defaults_without_hardware_section :
  forall (axis : string) (distance speed : float) (st : controller B),
    ConfigManager.subscript (config st) "hardware" = None ->
    max_speed st axis = YNum 10%float
    /\ _validate_movement axis distance speed st
       = (if PrimFloat.ltb 10%float speed
          then Err (Exn ValueError [T "Speed "; F speed; T " exceeds maximum ";
                                    Y (YNum 10%float); T " for "; T axis; T " axis"])
          else Ok tt, st, []).
Proof.
  intros axis distance speed st Hnone.
  pose proof (ceiling_without_hardware axis st Hnone) as Hmax.
  split; [exact Hmax |].
  destruct (PrimFloat.ltb 10%float speed) eqn:Hs.
  - now apply validate_rejects.
  - now apply validate_accepts with (m := 10%float).
Qed.

(** X28: what the web API's request model lets through, the controller
    lets through: for a [MoveRequest] that passes its validators with a
    speed given, and a configuration without a [hardware] section, the
    controller's own validation of that axis, distance and speed raises
    nothing, and the axis is one the Mesa driver knows. *)
Theorem accepted_request_passes_validation :
  forall (req : webapi.MoveRequest) (s : float) (st : controller B),
    webapi.accepted req ->
    webapi.speed req = Some s ->
    ConfigManager.subscript (config st) "hardware" = None ->
    _validate_movement (webapi.axis req) (webapi.distance req) s st = (Ok tt, st, [])
    /\ MesaDriver.valid_axis (webapi.axis req) = true
    /\ PrimFloat.leb s 0%float = false.
Proof.
  intros req s st [Haxis [_ Hspeed]] Hs Hnone.
  rewrite Hs in Hspeed. unfold webapi.validate_speed in Hspeed.
  destruct (PrimFloat.leb s 0%float) eqn:Hlow; simpl in Hspeed; [discriminate |].
  destruct (PrimFloat.ltb 10%float s) eqn:Hhigh; [discriminate |].
  unfold webapi.validate_axis in Haxis. unfold MesaDriver.valid_axis.
  destruct (String.eqb (webapi.axis req) "x" || String.eqb (webapi.axis req) "y");
    simpl in Haxis; [| discriminate].
  repeat split.
  apply validate_accepts with (m := 10%float); [| exact Hhigh].
  now apply ceiling_without_hardware.
Qed.

End CeilingLaws.

Section ValidationLaws.

Import ConfigValidation.






End ValidationLaws.

(* ===================================================================== *)
(** ** The Mesa driver, and the controller on it *)
(* ===================================================================== *)

Section MesaLaws.

(** X17: a driver that is not connected refuses every command: each method
    other than [is_connected], [connect] and [read_status] returns [False]
    and leaves the driver as it was, [home_axis] returns [False], and
    [read_status] reports not connected, without an e-stop value. *)
Theorem disconnected_driver_refuses :
  forall d : MesaDriver.t,
    MesaDriver._connected d = false ->
    (forall rq, rq <> IsConnected -> rq <> Connect -> rq <> ReadStatus ->
                MesaDriver.dispatch rq d = (Returns (VBool false), d))
    /\ (forall axis, MesaSession.home_axis axis d = false)
    /\ MesaDriver.read_status d = MesaDriver.not_connected_status.
Proof.
  intros d Hoff. repeat split.
  - intros rq H1 H2 H3.
    destruct rq; try congruence; simpl;
      unfold MesaDriver.move_axis, MesaDriver.move_absolute, MesaDriver.home_all_axes,
        MesaDriver.emergency_stop, MesaDriver.clear_emergency_stop, MesaDriver.start_jog,
        MesaDriver.stop_jog, MesaDriver.set_io, MesaDriver.is_connected;
      rewrite Hoff; simpl;
      repeat match goal with
             | |- context [if ?c then _ else _] => destruct c; simpl
             end; reflexivity.
  - intros axis. unfold MesaSession.home_axis, MesaDriver.is_connected.
    now rewrite Hoff.
  - unfold MesaDriver.read_status, MesaDriver.is_connected. now rewrite Hoff.
Qed.

(** X18: [connect] returns what [is_connected] says afterwards; it
    succeeds exactly when the [linuxcnc] module is there and none of
    [reload], [stat], [command], [error_channel] and [poll] raises, and then
    the driver holds its three LinuxCNC objects; the driver's own e-stop
    flag is not touched. *)
Theorem connect_reports_its_state :
  forall d : MesaDriver.t,
    fst (MesaDriver.connect d) = MesaDriver.is_connected (snd (MesaDriver.connect d))
    /\ fst (MesaDriver.connect d)
       = linuxcnc.available (MesaDriver.lcnc d)
         && linuxcnc.all_return (MesaDriver.lcnc d)
              [linuxcnc.reload; linuxcnc.stat; linuxcnc.command;
               linuxcnc.error_channel; linuxcnc.poll]
    /\ (fst (MesaDriver.connect d) = true ->
        MesaDriver.status (snd (MesaDriver.connect d)) = true
        /\ MesaDriver.command (snd (MesaDriver.connect d)) = true
        /\ MesaDriver.error (snd (MesaDriver.connect d)) = true)
    /\ MesaDriver._emergency_stop (snd (MesaDriver.connect d))
       = MesaDriver._emergency_stop d.
Proof.
  intros d. unfold MesaDriver.connect, linuxcnc.all_return. simpl.
  destruct (linuxcnc.available (MesaDriver.lcnc d)); simpl;
    [| repeat split; intros; discriminate].
  destruct (linuxcnc.raises (MesaDriver.lcnc d) linuxcnc.reload); simpl;
    [repeat split; intros; discriminate |].
  destruct (linuxcnc.raises (MesaDriver.lcnc d) linuxcnc.stat); simpl;
    [repeat split; intros; discriminate |].
  destruct (linuxcnc.raises (MesaDriver.lcnc d) linuxcnc.command); simpl;
    [repeat split; intros; discriminate |].
  destruct (linuxcnc.raises (MesaDriver.lcnc d) linuxcnc.error_channel); simpl;
    [repeat split; intros; discriminate |].
  destruct (linuxcnc.raises (MesaDriver.lcnc d) linuxcnc.poll); simpl;
    repeat split; intros; try discriminate; reflexivity.
Qed.

Lemma lcnc_kept (a : MesaSession.action) (d : MesaDriver.t) :
  MesaDriver.lcnc (MesaSession.act a d) = MesaDriver.lcnc d.
Proof.
  destruct a as [rq | | axis]; try reflexivity.
  destruct rq; simpl; try reflexivity.
  - unfold MesaDriver.connect. simpl.
    repeat match goal with
           | |- context [if ?c then _ else _] => destruct c; simpl
           end; reflexivity.
  - unfold MesaDriver.emergency_stop.
    repeat match goal with
           | |- context [if ?c then _ else _] => destruct c; simpl
           end; reflexivity.
  - unfold MesaDriver.clear_emergency_stop.
    repeat match goal with
           | |- context [if ?c then _ else _] => destruct c; simpl
           end; reflexivity.
Qed.

Lemma consistent_kept (a : MesaSession.action) (d : MesaDriver.t) :
  MesaSession.consistent d -> MesaSession.consistent (MesaSession.act a d).
Proof.
  unfold MesaSession.consistent. intros Hd.
  destruct a as [rq | | axis]; [| simpl; intros Hc; discriminate | exact Hd].
  destruct rq; simpl; try exact Hd.
  - unfold MesaDriver.connect. simpl.
    destruct (linuxcnc.available (MesaDriver.lcnc d)) eqn:Hav; simpl;
      [| intros Hc; discriminate].
    repeat match goal with
           | |- context [if ?c then _ else _] => destruct c; simpl
           end; intros Hc; try discriminate; auto.
  - unfold MesaDriver.emergency_stop.
    repeat match goal with
           | |- context [if ?c then _ else _] => destruct c; simpl
           end; exact Hd.
  - unfold MesaDriver.clear_emergency_stop.
    repeat match goal with
           | |- context [if ?c then _ else _] => destruct c; simpl
           end; exact Hd.
Qed.

(** X19: whatever is done with a new driver (its methods in any order,
    [disconnect] included), a driver that says it is connected holds its
    status, command and error objects, and the [linuxcnc] module was
    available. *)
Theorem driver_stays_consistent :
  forall (lc : linuxcnc.env) (actions : list MesaSession.action),
    MesaSession.consistent (MesaSession.run actions (MesaDriver.init lc)).
Proof.
  intros lc actions.
  assert (Hinv : forall d, MesaSession.consistent d ->
                           MesaSession.consistent (MesaSession.run actions d)).
  { induction actions as [| a rest IH]; intros d Hd; simpl; [exact Hd |].
    apply IH. now apply consistent_kept. }
  apply Hinv. intros Hc. discriminate Hc.
Qed.

End MesaLaws.

(** A run of the controller on the Mesa driver: the tests of the method,
    then the handshake, connected or not. *)
Ltac mesa_step st :=
  first
    [ case_step
    | progress unfold MesaDriver.is_connected
    | match goal with
      | E : MesaDriver._connected ?d = _ |- context [MesaDriver._connected ?d] => rewrite E
      | |- context [MesaDriver._connected (mesa_driver st)] =>
          let Hc := fresh "Hconn" in
          destruct (MesaDriver._connected (mesa_driver st)) eqn:Hc
      end ].

Ltac mesa_run st :=
  unfold_methods; unfold_monad; unfold result, final, trace, motion_calls;
  repeat (simpl; mesa_step st); simpl.

Section ControllerOnMesa.

(** The handshake on a working machine leaves a connected driver that
    holds its objects. *)
Lemma connect_on_working_machine (d : MesaDriver.t) :
  MesaSession.answers (MesaDriver.lcnc d) ->
  fst (MesaDriver.connect d) = true
  /\ MesaDriver._connected (snd (MesaDriver.connect d)) = true
  /\ MesaDriver.status (snd (MesaDriver.connect d)) = true
  /\ MesaDriver.command (snd (MesaDriver.connect d)) = true
  /\ MesaDriver.lcnc (snd (MesaDriver.connect d)) = MesaDriver.lcnc d.
Proof.
  intros [Hav Hquiet]. unfold MesaDriver.connect. simpl.
  rewrite Hav, !Hquiet. simpl. repeat split.
Qed.

(** X20: the controller does not check the axis name: on the Mesa driver,
    a single-axis move on a name other than 'x' and 'y' gets past the gate
    and validation, is sent to the driver, comes back [False], and is raised
    as a [RuntimeError] with the busy flag down again. *)
Theorem unknown_axis_fails_in_driver :
  forall (axis : string) (distance speed : option float) (s m : float)
         (st : controller MesaDriver.t),
    MesaDriver.valid_axis axis = false ->
    _emergency_stop_active st = false ->
    speed_or_default speed st = (Ok s, st, []) ->
    max_speed st axis = YNum m ->
    PrimFloat.ltb m s = false ->
    result (move_single_axis axis distance speed st)
    = Err (Exn RuntimeError [T "MesaDriver failed to move "; T axis; T " axis"])
    /\ motion_calls (trace (move_single_axis axis distance speed st))
       = [(MoveAxis axis (default_to_zero distance) s, Returns (VBool false))]
    /\ _movement_in_progress (final (move_single_axis axis distance speed st)) = false.
Proof.
  intros axis distance speed s m st Hbad Hgate Hspeed Hmax Hle.
  unfold max_speed in Hmax.
  destruct (speed_in_effect speed s st Hspeed) as [-> | [-> Hd]];
    [| unfold default_speed in Hd];
    mesa_run st;
    try (destruct (MesaDriver.connect (mesa_driver st)) as [ok d'] eqn:Hcon; simpl);
    unfold MesaDriver.move_axis; rewrite Hbad; simpl; repeat split.
Qed.

(** X21: on a working machine (the [linuxcnc] module is there and answers
    every operation) whose driver is consistent, connected or not, a
    single-axis move of 'x' or 'y' past the gate and validation succeeds:
    the controller connects if it has to, the driver accepts the move, and
    the call returns normally with the driver connected and the busy flag
    down. *)
Theorem move_succeeds_on_working_machine :
  forall (axis : string) (distance speed : option float) (s m : float)
         (st : controller MesaDriver.t),
    MesaSession.answers (MesaDriver.lcnc (mesa_driver st)) ->
    MesaSession.consistent (mesa_driver st) ->
    MesaDriver.valid_axis axis = true ->
    _emergency_stop_active st = false ->
    speed_or_default speed st = (Ok s, st, []) ->
    max_speed st axis = YNum m ->
    PrimFloat.ltb m s = false ->
    result (move_single_axis axis distance speed st) = Ok tt
    /\ motion_calls (trace (move_single_axis axis distance speed st))
       = [(MoveAxis axis (default_to_zero distance) s, Returns (VBool true))]
    /\ MesaDriver._connected (mesa_driver (final (move_single_axis axis distance speed st)))
       = true
    /\ _movement_in_progress (final (move_single_axis axis distance speed st)) = false.
Proof.
  intros axis distance speed s m st Hlc Hwf Hok Hgate Hspeed Hmax Hle.
  unfold max_speed in Hmax.
  destruct (connect_on_working_machine (mesa_driver st) Hlc)
    as [Hc1 [Hc2 [Hc3 [Hc4 Hc5]]]].
  destruct Hlc as [Hav Hquiet].
  destruct (speed_in_effect speed s st Hspeed) as [-> | [-> Hd]];
    [| unfold default_speed in Hd];
    mesa_run st;
    try (destruct (Hwf Hconn) as [Hs [Hcm [He Ha]]];
         unfold MesaDriver.move_axis, MesaDriver.is_connected, linuxcnc.all_return;
         rewrite Hok, Hconn, Hav, Hs, Hcm; simpl; rewrite !Hquiet; simpl;
         repeat split; assumption);
    destruct (MesaDriver.connect (mesa_driver st)) as [ok d'] eqn:Hcon;
    simpl in Hc1, Hc2, Hc3, Hc4, Hc5; simpl;
    unfold MesaDriver.move_axis, MesaDriver.is_connected, linuxcnc.all_return;
    rewrite Hok, Hc2, Hc3, Hc4, Hc5, Hav; simpl; rewrite !Hquiet; simpl;
    repeat split; assumption.
Qed.

(** X22: on a working machine whose driver is consistent, the status read
    makes the controller's flag mirror the machine: whatever the flag was,
    [get_emergency_stop_status] returns what the status channel reports for
    the e-stop and leaves the flag at that value. *)
Theorem status_read_mirrors_machine :
  forall st : controller MesaDriver.t,
    MesaSession.answers (MesaDriver.lcnc (mesa_driver st)) ->
    MesaSession.consistent (mesa_driver st) ->
    result (get_emergency_stop_status st)
    = Ok (linuxcnc.estop (MesaDriver.lcnc (mesa_driver st)))
    /\ _emergency_stop_active (final (get_emergency_stop_status st))
       = linuxcnc.estop (MesaDriver.lcnc (mesa_driver st)).
Proof.
  intros st Hlc Hwf.
  destruct (connect_on_working_machine (mesa_driver st) Hlc)
    as [Hc1 [Hc2 [Hc3 [Hc4 Hc5]]]].
  destruct Hlc as [Hav Hquiet].
  mesa_run st.
  - destruct (Hwf Hconn) as [Hs [Hcm [He Ha]]].
    unfold MesaDriver.read_status, MesaDriver.is_connected.
    rewrite Hconn, Hs, Hquiet. simpl. split; reflexivity.
  - destruct (MesaDriver.connect (mesa_driver st)) as [ok d'] eqn:Hcon.
    simpl in Hc1, Hc2, Hc3, Hc4, Hc5. simpl.
    unfold MesaDriver.read_status, MesaDriver.is_connected.
    rewrite Hc2, Hc3, Hc5, Hquiet. simpl. split; reflexivity.
Qed.

End ControllerOnMesa.

(* ===================================================================== *)
(** ** The axis manager *)
(* ===================================================================== *)

Section AxisManagerLaws.

Lemma known_axis (axis : string) (s : AxisManager.t) :
  axis = "x" \/ axis = "y" ->
  exists a, AxisManager.axis_states s axis = Some a.
Proof.
  intros [-> | ->]; eexists; reflexivity.
Qed.

Lemma unknown_axis (axis : string) (s : AxisManager.t) :
  axis <> "x" -> axis <> "y" -> AxisManager.axis_states s axis = None.
Proof.
  intros Hx Hy. apply String.eqb_neq in Hx. apply String.eqb_neq in Hy.
  unfold AxisManager.axis_states. now rewrite Hx, Hy.
Qed.



(** X24: every method that takes an axis raises [ValueError] for a name
    other than 'x' and 'y', before it logs or changes anything. *)
Theorem axis_manager_rejects_unknown_axis :
  forall (axis : string) (steps speed p : Z) (s : AxisManager.t),
    axis <> "x" -> axis <> "y" ->
    AxisManager.get_axis_status axis s = AxisManager.invalid_axis axis s
    /\ AxisManager.disable_axis axis s = AxisManager.invalid_axis axis s
    /\ AxisManager.move_axis axis steps speed s = AxisManager.invalid_axis axis s
    /\ AxisManager.home_axis axis speed s = AxisManager.invalid_axis axis s
    /\ AxisManager.stop_axis axis s = AxisManager.invalid_axis axis s
    /\ AxisManager.get_position axis s = AxisManager.invalid_axis axis s
    /\ AxisManager.set_position axis p s = AxisManager.invalid_axis axis s
    /\ AxisManager.is_enabled axis s = AxisManager.invalid_axis axis s
    /\ AxisManager.is_in_position axis s = AxisManager.invalid_axis axis s.
Proof.
  intros axis steps speed p s Hx Hy.
  pose proof (unknown_axis axis s Hx Hy) as Hnone.
  unfold AxisManager.get_axis_status, AxisManager.disable_axis, AxisManager.move_axis,
    AxisManager.home_axis, AxisManager.stop_axis, AxisManager.get_position,
    AxisManager.set_position, AxisManager.is_enabled, AxisManager.is_in_position.
  rewrite Hnone. repeat split.
Qed.

(** X25: [set_position] and [home_axis] are read back by [get_position]:
    for 'x' and 'y', the position set is the position read, homing reads
    back 0, and neither touches the other axis or the system state. *)
Theorem position_is_read_back :
  forall (axis other : string) (p speed : Z) (s : AxisManager.t),
    axis = "x" \/ axis = "y" ->
    other <> axis ->
    fst (fst (AxisManager.get_position axis
                (AxisManager.after (AxisManager.set_position axis p s)))) = Ok p
    /\ fst (fst (AxisManager.get_position axis
                   (AxisManager.after (AxisManager.home_axis axis speed s)))) = Ok 0%Z
    /\ AxisManager.axis_states (AxisManager.after (AxisManager.set_position axis p s)) other
       = AxisManager.axis_states s other
    /\ AxisManager.axis_states (AxisManager.after (AxisManager.home_axis axis speed s)) other
       = AxisManager.axis_states s other
    /\ AxisManager._system_state (AxisManager.after (AxisManager.set_position axis p s))
       = AxisManager._system_state s
    /\ AxisManager._system_state (AxisManager.after (AxisManager.home_axis axis speed s))
       = AxisManager._system_state s.
Proof.
  intros axis other p speed s Haxis Hother.
  apply String.eqb_neq in Hother.
  destruct Haxis as [-> | ->];
    unfold AxisManager.get_position, AxisManager.set_position, AxisManager.home_axis,
      AxisManager.axis_states, AxisManager.store, AxisManager.after; simpl;
    rewrite Hother; repeat split;
    destruct (String.eqb other "x"), (String.eqb other "y"); reflexivity.
Qed.

(** X26: [emergency_stop_all] followed by [clear_emergency_stop] lowers the
    system flag again and leaves both axes idle at the position and enable
    state they had, but not in position: clearing does not restore
    [in_position]. *)
Theorem clear_after_stop_leaves_axes_out_of_position :
  forall s : AxisManager.t,
    AxisManager.emergency_stop
      (AxisManager._system_state (AxisManager.run
         [AxisManager.EmergencyStopAll; AxisManager.ClearAll] s)) = false
    /\ AxisManager.axis_x (AxisManager.run
         [AxisManager.EmergencyStopAll; AxisManager.ClearAll] s)
       = {| AxisManager.position := AxisManager.position (AxisManager.axis_x s);
            AxisManager.enabled := AxisManager.enabled (AxisManager.axis_x s);
            AxisManager.in_position := false;
            AxisManager.status := "idle" |}
    /\ AxisManager.axis_y (AxisManager.run
         [AxisManager.EmergencyStopAll; AxisManager.ClearAll] s)
       = {| AxisManager.position := AxisManager.position (AxisManager.axis_y s);
            AxisManager.enabled := AxisManager.enabled (AxisManager.axis_y s);
            AxisManager.in_position := false;
            AxisManager.status := "idle" |}.
Proof.
  intros s. repeat split.
Qed.

End AxisManagerLaws.

(* ===================================================================== *)
(** ** Program file names *)
(* ===================================================================== *)

Section FilenameLaws.

Lemma prefix_length (n : nat) (s : string) : String.length (webapi.prefix n s) <= n.
Proof.
  revert s. induction n as [| n IH]; intros s; simpl; [apply le_n |].
  destruct s as [| c rest]; simpl; [apply Nat.le_0_l |].
  apply le_n_S, IH.
Qed.

Lemma prefix_safe (n : nat) (s : string) :
  webapi.safe s = true -> webapi.safe (webapi.prefix n s) = true.
Proof.
  revert s. induction n as [| n IH]; intros s Hs; simpl; [reflexivity |].
  destruct s as [| c rest]; simpl in *; [reflexivity |].
  apply andb_prop in Hs. destruct Hs as [Hc Hrest].
  now rewrite Hc, IH.
Qed.

Lemma prefix_prefix (n : nat) (s : string) :
  webapi.prefix n (webapi.prefix n s) = webapi.prefix n s.
Proof.
  revert s. induction n as [| n IH]; intros s; simpl; [reflexivity |].
  destruct s as [| c rest]; simpl; [reflexivity |]. now rewrite IH.
Qed.

Lemma prefix_short (n : nat) (s : string) :
  String.length s <= n -> webapi.prefix n s = s.
Proof.
  revert s. induction n as [| n IH]; intros s Hlen; simpl.
  - destruct s; [reflexivity | inversion Hlen].
  - destruct s as [| c rest]; [reflexivity |].
    simpl in Hlen. apply le_S_n in Hlen. now rewrite IH.
Qed.

Lemma replace_unsafe_safe (s : string) : webapi.safe (webapi.replace_unsafe s) = true.
Proof.
  induction s as [| c rest IH]; simpl; [reflexivity |].
  rewrite IH. destruct (webapi.unsafe c) eqn:Hc; [reflexivity | now rewrite Hc].
Qed.

Lemma replace_unsafe_fixes_safe (s : string) :
  webapi.safe s = true -> webapi.replace_unsafe s = s.
Proof.
  induction s as [| c rest IH]; simpl; [reflexivity |].
  intros Hs. apply andb_prop in Hs. destruct Hs as [Hc Hrest].
  apply negb_true_iff in Hc. now rewrite Hc, IH.
Qed.

(** X27: [sanitize_filename] gives a name of at most 50 characters with
    none of the characters < > : double quote / backslash | ? * in it;
    sanitizing twice is sanitizing once, and a name that is already safe
    and at most 50 characters long is returned as it is. *)
Theorem sanitize_filename_is_safe :
  forall name : string,
    String.length (webapi.sanitize_filename name) <= 50
    /\ webapi.safe (webapi.sanitize_filename name) = true
    /\ webapi.sanitize_filename (webapi.sanitize_filename name)
       = webapi.sanitize_filename name
    /\ (webapi.safe name = true -> String.length name <= 50 ->
        webapi.sanitize_filename name = name).
Proof.
  intros name. unfold webapi.sanitize_filename. repeat split.
  - apply prefix_length.
  - apply prefix_safe, replace_unsafe_safe.
  - rewrite (replace_unsafe_fixes_safe (webapi.prefix 50 (webapi.replace_unsafe name)))
      by apply prefix_safe, replace_unsafe_safe.
    apply prefix_prefix.
  - intros Hs Hlen. rewrite (replace_unsafe_fixes_safe name Hs).
    now apply prefix_short.
Qed.

End FilenameLaws.

(* ===================================================================== *)
(** ** More runs on the Mesa driver and the axis manager *)
(* ===================================================================== *)

Lemma set_io_rejects_unknown_name_witness :
  "up" <> "down" /\ "up" <> "start"
  /\ exists e, set_io "up" true idle_machine = (Err e, idle_machine, [])
               /\ ValidationError e.
Proof.
  split; [discriminate |]. split; [discriminate |].
  apply (set_io_rejects_unknown_name "up" true idle_machine); discriminate.
Defined.

Lemma set_io_sends_one_command_witness :
  ("down" = "down" \/ "down" = "start")
  /\ ((exists e, result (set_io "down" true idle_machine) = Err e
                 /\ handshake_raised e (trace (set_io "down" true idle_machine))
                 /\ motion_calls (trace (set_io "down" true idle_machine)) = [])
      \/ exists rp,
           motion_calls (trace (set_io "down" true idle_machine))
           = [(SetIO (if String.eqb "down" "down" then 0%Z else 1%Z) true, rp)]
           /\ result (set_io "down" true idle_machine)
              = if failed rp
                then Err (surfaced [T "MesaDriver failed to set "; T "down"; T " to ";
                                    Bv true] rp)
                else Ok tt).
Proof.
  split; [left; reflexivity |].
  apply (set_io_sends_one_command "down" true idle_machine). left; reflexivity.
Defined.

(** The flood output, switched on a working machine. *)
Example set_io_start_runs :
  calls (trace (set_io "start" true idle_machine))
  = [(IsConnected, Returns (VBool false)); (Connect, Returns (VBool true));
     (SetIO 1%Z true, Returns (VBool true))]
  /\ result (set_io "start" true idle_machine) = Ok tt.
Proof. vm_compute. split; reflexivity. Qed.

Lemma start_jog_sends_unvalidated_command_witness :
  _emergency_stop_active idle_machine = false
  /\ ((exists e, result (start_jog "x" 1%Z 1000%float idle_machine) = Err e
                 /\ handshake_raised e (trace (start_jog "x" 1%Z 1000%float idle_machine))
                 /\ motion_calls (trace (start_jog "x" 1%Z 1000%float idle_machine)) = [])
      \/ exists rp,
           motion_calls (trace (start_jog "x" 1%Z 1000%float idle_machine))
           = [(StartJog "x" 1%Z 1000%float, rp)]
           /\ result (start_jog "x" 1%Z 1000%float idle_machine)
              = if failed rp
                then Err (surfaced [T "MesaDriver failed to start jog on "; T "x";
                                    T " axis"] rp)
                else Ok tt).
Proof.
  split; [reflexivity |].
  apply (start_jog_sends_unvalidated_command "x" 1%Z 1000%float idle_machine).
  reflexivity.
Defined.

(** A jog at a hundred times the ceiling is started. *)
Example fast_jog_is_started :
  max_speed idle_machine "x" = YNum 10%float
  /\ result (start_jog "x" 1%Z 1000%float idle_machine) = Ok tt
  /\ motion_calls (trace (start_jog "x" 1%Z 1000%float idle_machine))
     = [(StartJog "x" 1%Z 1000%float, Returns (VBool true))].
Proof. vm_compute. repeat split. Qed.

Lemma move_single_axis_sends_one_command_witness :
  _emergency_stop_active idle_machine = false
  /\ speed_or_default None idle_machine = (Ok 1%float, idle_machine, [])
  /\ max_speed idle_machine "y" = YNum 10%float
  /\ PrimFloat.ltb 10%float 1%float = false
  /\ ((exists e, result (move_single_axis "y" None None idle_machine) = Err e
                 /\ handshake_raised e (trace (move_single_axis "y" None None idle_machine))
                 /\ motion_calls (trace (move_single_axis "y" None None idle_machine)) = [])
      \/ exists rp,
           motion_calls (trace (move_single_axis "y" None None idle_machine))
           = [(MoveAxis "y" (default_to_zero None) 1%float, rp)]
           /\ result (move_single_axis "y" None None idle_machine)
              = if failed rp
                then Err (surfaced [T "MesaDriver failed to move "; T "y"; T " axis"] rp)
                else Ok tt).
Proof.
  split; [reflexivity |]. split; [reflexivity |].
  split; [reflexivity |]. split; [reflexivity |].
  apply (move_single_axis_sends_one_command "y" None None 1%float 10%float idle_machine);
    reflexivity.
Defined.

Lemma move_absolute_ignores_reply_witness :
  _emergency_stop_active offline_machine = false
  /\ speed_or_default (Some 1%float) offline_machine = (Ok 1%float, offline_machine, [])
  /\ max_speed offline_machine "x" = YNum 10%float
  /\ PrimFloat.ltb 10%float 1%float = false
  /\ max_speed offline_machine "y" = YNum 10%float
  /\ (forall rq e,
         ~ In (rq, Raises e)
             (calls (trace (move_absolute (Some 1%float) (Some 1%float) (Some 1%float)
                              offline_machine))))
  /\ result (move_absolute (Some 1%float) (Some 1%float) (Some 1%float) offline_machine)
     = Ok tt.
Proof.
  assert (Hquiet : forall rq e,
             ~ In (rq, Raises e)
                 (calls (trace (move_absolute (Some 1%float) (Some 1%float)
                                  (Some 1%float) offline_machine)))).
  { intros rq e Hin. vm_compute in Hin.
    destruct Hin as [Hin | [Hin | [Hin | []]]]; discriminate Hin. }
  split; [reflexivity |]. split; [reflexivity |]. split; [reflexivity |].
  split; [reflexivity |]. split; [reflexivity |]. split; [exact Hquiet |].
  apply (move_absolute_ignores_reply (Some 1%float) (Some 1%float) (Some 1%float)
           1%float 10%float 10%float offline_machine); try reflexivity.
  exact Hquiet.
Defined.

(** Without [linuxcnc] the driver's absolute move returns [False], and the
    controller's returns normally. *)
Example absolute_move_hides_refusal :
  calls (trace (move_absolute (Some 1%float) (Some 1%float) (Some 1%float)
                  offline_machine))
  = [(IsConnected, Returns (VBool false)); (Connect, Returns (VBool false));
     (MoveAbsolute 1%float 1%float, Returns (VBool false))]
  /\ result (move_absolute (Some 1%float) (Some 1%float) (Some 1%float) offline_machine)
     = Ok tt.
Proof. vm_compute. split; reflexivity. Qed.

Lemma emergency_stop_closes_gate_witness :
  is_gated (OpMoveAbsolute (Some 1%float) (Some 1%float) None) = true
  /\ exists e,
       perform (OpMoveAbsolute (Some 1%float) (Some 1%float) None)
         (final (emergency_stop offline_machine))
       = (Err e, final (emergency_stop offline_machine), [])
       /\ SafetyBlocked e.
Proof.
  split; [reflexivity |].
  apply (emergency_stop_closes_gate (OpMoveAbsolute (Some 1%float) (Some 1%float) None)
           offline_machine); reflexivity.
Defined.

Lemma blocked_iff_flag_set_witness :
  is_gated (OpStartJog "x" 1%Z 2%float) = true
  /\ ((exists e, perform (OpStartJog "x" 1%Z 2%float) stopped_machine
                 = (Err e, stopped_machine, [])
                 /\ SafetyBlocked e)
      <-> _emergency_stop_active stopped_machine = true).
Proof.
  split; [reflexivity |].
  apply (blocked_iff_flag_set (OpStartJog "x" 1%Z 2%float) stopped_machine); reflexivity.
Defined.

Lemma busy_flag_down_after_session_witness :
  _movement_in_progress idle_machine = false
  /\ _movement_in_progress
       (session [OpHomeAxes None; OpEmergencyStop;
                 OpMoveSingleAxis "x" (Some 1%float) None; OpClearEmergencyStop;
                 OpMoveCoordinated (Some 1%float) (Some 1%float) (Some 20%float)]
          idle_machine) = false.
Proof.
  split; [reflexivity |].
  apply (busy_flag_down_after_session
           [OpHomeAxes None; OpEmergencyStop;
            OpMoveSingleAxis "x" (Some 1%float) None; OpClearEmergencyStop;
            OpMoveCoordinated (Some 1%float) (Some 1%float) (Some 20%float)]
           idle_machine); reflexivity.
Defined.

Lemma get_follows_path_witness :
  ["table"; "x_axis"; "max_position"] <> []
  /\ forallb dotless ["table"; "x_axis"; "max_position"] = true
  /\ (ConfigManager.get complete_config (join ["table"; "x_axis"; "max_position"]) YNull
      = match ConfigManager.descend ["table"; "x_axis"; "max_position"] complete_config with
        | Some v => v
        | None => YNull
        end
      /\ ConfigManager.get (nest ["table"; "x_axis"; "max_position"] (YNum 4.25%float))
           (join ["table"; "x_axis"; "max_position"]) YNull
         = YNum 4.25%float).
Proof.
  split; [discriminate |]. split; [reflexivity |].
  apply (get_follows_path ["table"; "x_axis"; "max_position"] complete_config
           (YNum 4.25%float) YNull); [discriminate | reflexivity].
Defined.

Lemma get_defaults_below_scalar_witness :
  ["address"] <> []
  /\ forallb dotless (["mesa"; "ip"] ++ ["address"]) = true
  /\ ConfigManager.descend ["mesa"; "ip"] complete_config = Some (YNum 0%float)
  /\ (forall entries, YNum 0%float <> YMap entries)
  /\ ConfigManager.get complete_config (join (["mesa"; "ip"] ++ ["address"])) YNull = YNull.
Proof.
  split; [discriminate |]. split; [reflexivity |]. split; [reflexivity |].
  split; [discriminate |].
  apply (get_defaults_below_scalar ["mesa"; "ip"] ["address"] complete_config
           (YNum 0%float) YNull);
    [discriminate | reflexivity | reflexivity | discriminate].
Defined.

Lemma ceiling_defaults_without_hardware_section_witness :
  ConfigManager.subscript (config (fresh complete_config (healthy false))) "hardware" = None
  /\ (max_speed (fresh complete_config (healthy false)) "x" = YNum 10%float
      /\ _validate_movement "x" 0.5%float 5%float (fresh complete_config (healthy false))
         = (if PrimFloat.ltb 10%float 5%float
            then Err (Exn ValueError [T "Speed "; F 5%float; T " exceeds maximum ";
                                      Y (YNum 10%float); T " for "; T "x"; T " axis"])
            else Ok tt, fresh complete_config (healthy false), [])).
Proof.
  split; [reflexivity |].
  apply (ceiling_defaults_without_hardware_section "x" 0.5%float 5%float
           (fresh complete_config (healthy false))); reflexivity.
Defined.

Lemma accepted_request_passes_validation_witness :
  webapi.accepted
    {| webapi.axis := "x"; webapi.distance := 0.5%float; webapi.speed := Some 3%float |}
  /\ webapi.speed
       {| webapi.axis := "x"; webapi.distance := 0.5%float; webapi.speed := Some 3%float |}
     = Some 3%float
  /\ ConfigManager.subscript (config idle_machine) "hardware" = None
  /\ (_validate_movement
        (webapi.axis {| webapi.axis := "x"; webapi.distance := 0.5%float;
                        webapi.speed := Some 3%float |})
        (webapi.distance {| webapi.axis := "x"; webapi.distance := 0.5%float;
                            webapi.speed := Some 3%float |})
        3%float idle_machine
      = (Ok tt, idle_machine, [])
      /\ MesaDriver.valid_axis
           (webapi.axis {| webapi.axis := "x"; webapi.distance := 0.5%float;
                           webapi.speed := Some 3%float |}) = true
      /\ PrimFloat.leb 3%float 0%float = false).
Proof.
  assert (Hacc : webapi.accepted
                   {| webapi.axis := "x"; webapi.distance := 0.5%float;
                      webapi.speed := Some 3%float |})
    by (repeat split).
  split; [exact Hacc |]. split; [reflexivity |]. split; [reflexivity |].
  apply (accepted_request_passes_validation
           {| webapi.axis := "x"; webapi.distance := 0.5%float;
              webapi.speed := Some 3%float |} 3%float idle_machine);
    [exact Hacc | reflexivity | reflexivity].
Defined.

(** The table section sets [max_speed] to 2.0 for the X axis; a move at 5.0
    passes validation all the same. *)
Example table_ceiling_is_not_applied :
  ConfigManager.get complete_config "table.x_axis.max_speed" YNull = YNum 2%float
  /\ result (move_single_axis "x" (Some 0.5%float) (Some 5%float)
               (fresh complete_config (healthy false))) = Ok tt.
Proof. vm_compute. split; reflexivity. Qed.

(** The complete file passes the checks silently; the file with the table
    and movement sections only draws two warnings. *)
Example validate_config_runs :
  ConfigValidation._validate_config complete_config = (Ok tt, [])
  /\ ConfigValidation._validate_config table_config
     = (Ok tt, [Log WARNING [T "Missing configuration section: "; T "mesa"];
                Log WARNING [T "Missing configuration section: "; T "logging"];
                Log WARNING [T "Missing "; T "max_travel"; T " configuration for ";
                             T "x_axis"];
                Log WARNING [T "Missing "; T "default_speed"; T " configuration for ";
                             T "x_axis"];
                Log WARNING [T "Missing "; T "max_travel"; T " configuration for ";
                             T "y_axis"];
                Log WARNING [T "Missing "; T "default_speed"; T " configuration for ";
                             T "y_axis"]])
  /\ fst (ConfigValidation._validate_config YNull) = Err ConfigValidation.not_iterable.
Proof. vm_compute. repeat split. Qed.

Lemma disconnected_driver_refuses_witness :
  MesaDriver._connected disconnected_driver = false
  /\ ((forall rq, rq <> IsConnected -> rq <> Connect -> rq <> ReadStatus ->
                  MesaDriver.dispatch rq disconnected_driver
                  = (Returns (VBool false), disconnected_driver))
      /\ (forall axis, MesaSession.home_axis axis disconnected_driver = false)
      /\ MesaDriver.read_status disconnected_driver = MesaDriver.not_connected_status).
Proof.
  split; [reflexivity |].
  apply (disconnected_driver_refuses disconnected_driver); reflexivity.
Defined.

Lemma unknown_axis_fails_in_driver_witness :
  MesaDriver.valid_axis "z" = false
  /\ _emergency_stop_active idle_machine = false
  /\ speed_or_default (Some 1%float) idle_machine = (Ok 1%float, idle_machine, [])
  /\ max_speed idle_machine "z" = YNum 10%float
  /\ PrimFloat.ltb 10%float 1%float = false
  /\ (result (move_single_axis "z" (Some 1%float) (Some 1%float) idle_machine)
      = Err (Exn RuntimeError [T "MesaDriver failed to move "; T "z"; T " axis"])
      /\ motion_calls (trace (move_single_axis "z" (Some 1%float) (Some 1%float)
                                idle_machine))
         = [(MoveAxis "z" (default_to_zero (Some 1%float)) 1%float, Returns (VBool false))]
      /\ _movement_in_progress
           (final (move_single_axis "z" (Some 1%float) (Some 1%float) idle_machine))
         = false).
Proof.
  split; [reflexivity |]. split; [reflexivity |]. split; [reflexivity |].
  split; [reflexivity |]. split; [reflexivity |].
  apply (unknown_axis_fails_in_driver "z" (Some 1%float) (Some 1%float) 1%float 10%float
           idle_machine); reflexivity.
Defined.

Lemma working_machine_answers (pressed : bool) : MesaSession.answers (healthy pressed).
Proof. split; [reflexivity | intros o; reflexivity]. Defined.

Lemma new_driver_consistent (lc : linuxcnc.env) : MesaSession.consistent (MesaDriver.init lc).
Proof. intros Hc. discriminate Hc. Defined.

Lemma move_succeeds_on_working_machine_witness :
  MesaSession.answers (MesaDriver.lcnc (mesa_driver idle_machine))
  /\ MesaSession.consistent (mesa_driver idle_machine)
  /\ MesaDriver.valid_axis "x" = true
  /\ _emergency_stop_active idle_machine = false
  /\ speed_or_default (Some 3%float) idle_machine = (Ok 3%float, idle_machine, [])
  /\ max_speed idle_machine "x" = YNum 10%float
  /\ PrimFloat.ltb 10%float 3%float = false
  /\ (result (move_single_axis "x" (Some 0.5%float) (Some 3%float) idle_machine) = Ok tt
      /\ motion_calls (trace (move_single_axis "x" (Some 0.5%float) (Some 3%float)
                                idle_machine))
         = [(MoveAxis "x" (default_to_zero (Some 0.5%float)) 3%float, Returns (VBool true))]
      /\ MesaDriver._connected
           (mesa_driver (final (move_single_axis "x" (Some 0.5%float) (Some 3%float)
                                  idle_machine))) = true
      /\ _movement_in_progress
           (final (move_single_axis "x" (Some 0.5%float) (Some 3%float) idle_machine))
         = false).
Proof.
  split; [exact (working_machine_answers false) |].
  split; [exact (new_driver_consistent (healthy false)) |].
  split; [reflexivity |]. split; [reflexivity |]. split; [reflexivity |].
  split; [reflexivity |]. split; [reflexivity |].
  apply (move_succeeds_on_working_machine "x" (Some 0.5%float) (Some 3%float) 3%float
           10%float idle_machine);
    try reflexivity;
    [exact (working_machine_answers false) | exact (new_driver_consistent (healthy false))].
Defined.

Lemma status_read_mirrors_machine_witness :
  MesaSession.answers (MesaDriver.lcnc (mesa_driver pressed_machine))
  /\ MesaSession.consistent (mesa_driver pressed_machine)
  /\ (result (get_emergency_stop_status pressed_machine)
      = Ok (linuxcnc.estop (MesaDriver.lcnc (mesa_driver pressed_machine)))
      /\ _emergency_stop_active (final (get_emergency_stop_status pressed_machine))
         = linuxcnc.estop (MesaDriver.lcnc (mesa_driver pressed_machine))).
Proof.
  split; [exact (working_machine_answers true) |].
  split; [exact (new_driver_consistent (healthy true)) |].
  apply (status_read_mirrors_machine pressed_machine);
    [exact (working_machine_answers true) | exact (new_driver_consistent (healthy true))].
Defined.

Lemma axis_manager_rejects_unknown_axis_witness :
  "z" <> "x" /\ "z" <> "y"
  /\ (AxisManager.get_axis_status "z" AxisManager.init
      = AxisManager.invalid_axis "z" AxisManager.init
      /\ AxisManager.disable_axis "z" AxisManager.init
         = AxisManager.invalid_axis "z" AxisManager.init
      /\ AxisManager.move_axis "z" 5%Z 1%Z AxisManager.init
         = AxisManager.invalid_axis "z" AxisManager.init
      /\ AxisManager.home_axis "z" 1%Z AxisManager.init
         = AxisManager.invalid_axis "z" AxisManager.init
      /\ AxisManager.stop_axis "z" AxisManager.init
         = AxisManager.invalid_axis "z" AxisManager.init
      /\ AxisManager.get_position "z" AxisManager.init
         = AxisManager.invalid_axis "z" AxisManager.init
      /\ AxisManager.set_position "z" 7%Z AxisManager.init
         = AxisManager.invalid_axis "z" AxisManager.init
      /\ AxisManager.is_enabled "z" AxisManager.init
         = AxisManager.invalid_axis "z" AxisManager.init
      /\ AxisManager.is_in_position "z" AxisManager.init
         = AxisManager.invalid_axis "z" AxisManager.init).
Proof.
  split; [discriminate |]. split; [discriminate |].
  apply (axis_manager_rejects_unknown_axis "z" 5%Z 1%Z 7%Z AxisManager.init);
    discriminate.
Defined.

Lemma position_is_read_back_witness :
  ("x" = "x" \/ "x" = "y")
  /\ "y" <> "x"
  /\ (fst (fst (AxisManager.get_position "x"
                  (AxisManager.after (AxisManager.set_position "x" 7%Z AxisManager.init))))
      = Ok 7%Z
      /\ fst (fst (AxisManager.get_position "x"
                     (AxisManager.after (AxisManager.home_axis "x" 1%Z AxisManager.init))))
         = Ok 0%Z
      /\ AxisManager.axis_states
           (AxisManager.after (AxisManager.set_position "x" 7%Z AxisManager.init)) "y"
         = AxisManager.axis_states AxisManager.init "y"
      /\ AxisManager.axis_states
           (AxisManager.after (AxisManager.home_axis "x" 1%Z AxisManager.init)) "y"
         = AxisManager.axis_states AxisManager.init "y"
      /\ AxisManager._system_state
           (AxisManager.after (AxisManager.set_position "x" 7%Z AxisManager.init))
         = AxisManager._system_state AxisManager.init
      /\ AxisManager._system_state
           (AxisManager.after (AxisManager.home_axis "x" 1%Z AxisManager.init))
         = AxisManager._system_state AxisManager.init).
Proof.
  split; [left; reflexivity |]. split; [discriminate |].
  apply (position_is_read_back "x" "y" 7%Z 1%Z AxisManager.init);
    [left; reflexivity | discriminate].
Defined.

(** A name with a path in it, and a long one. *)
Example sanitize_filename_runs :
  webapi.sanitize_filename "../etc/passwd" = ".._etc_passwd"
  /\ webapi.sanitize_filename "a:b*c?.json" = "a_b_c_.json"
  /\ String.length
       (webapi.sanitize_filename
          "0123456789012345678901234567890123456789012345678901234567890123456789")
     = 50.
Proof. vm_compute. repeat split. Qed.
